(** * WAR: the Well-Architected review tool

    A shallow embedding of the pipeline logic of [streamlit_v1.py]: the
    image gate ([validate_image_size], [convert_to_jpeg]), the table parser
    ([parse_analysis_results]) and the high-priority view built by
    [display_results] and [create_download_link]; and of [lambda_v1.py]:
    the reading of the model's answer and the handler.

    Python strings are modelled as [string]; a character is one of the 256
    code points of Latin-1.  Python lists are lists, the [results] dict is
    an association list in insertion order, and the four-key inner dict of a
    pillar is a record.  Exceptions are made explicit: an operation that can
    raise returns a value of [Exc]. *)

From Stdlib Require Import String Ascii List Bool Arith ZArith Lia.
From Stdlib Require Import DecimalString.
From Stdlib Require PrimFloat.
Import ListNotations.
Local Open Scope string_scope.
Local Open Scope nat_scope.
Local Open Scope list_scope.

(** ** Python string primitives *)

Module PyStr.

(** [bool(s)] for a string: non-empty. *)
Definition truthy (s : string) : bool :=
  match s with
  | EmptyString => false
  | String _ _ => true
  end.

(** [str.isspace] on one character of the Latin-1 range: TAB, LF, VT, FF,
    CR, the four separators FS GS RS US, SPACE, NEL and NBSP. *)
Definition isspace (c : ascii) : bool :=
  let n := nat_of_ascii c in
  (((9 <=? n) && (n <=? 13)) || ((28 <=? n) && (n <=? 32))
   || (n =? 133) || (n =? 160))%nat.

(** Membership of a character in the character set given to [strip]. *)
Fixpoint mem (c : ascii) (chars : string) : bool :=
  match chars with
  | EmptyString => false
  | String d chars' => Ascii.eqb c d || mem c chars'
  end.

(** [s.lstrip(...)]: drop the longest prefix made of characters in [p]. *)
Fixpoint lstrip_by (p : ascii -> bool) (s : string) : string :=
  match s with
  | EmptyString => EmptyString
  | String c s' => if p c then lstrip_by p s' else s
  end.

(** [s.rstrip(...)]: drop the longest suffix made of characters in [p]. *)
Fixpoint rstrip_by (p : ascii -> bool) (s : string) : string :=
  match s with
  | EmptyString => EmptyString
  | String c s' =>
      match rstrip_by p s' with
      | EmptyString => if p c then EmptyString else String c EmptyString
      | r => String c r
      end
  end.

Definition strip_by (p : ascii -> bool) (s : string) : string :=
  rstrip_by p (lstrip_by p s).

(** [s.strip()] *)
Definition strip (s : string) : string := strip_by isspace s.

(** [s.strip(chars)] *)
Definition strip_chars (chars s : string) : string :=
  strip_by (fun c => mem c chars) s.

(** [s.startswith(p)] *)
Definition startswith (s p : string) : bool := prefix p s.

(** [sub in s] *)
Fixpoint contains (sub s : string) : bool :=
  prefix sub s ||
  match s with
  | EmptyString => false
  | String _ s' => contains sub s'
  end.

(** [s.split(sep)] for a non-empty [sep]: leftmost, non-overlapping
    occurrences of [sep] cut [s] into fields.  [split_from sep skip s]
    returns the field being read and the fields after it; [skip] counts the
    characters of a separator occurrence that are still to be passed over. *)
Fixpoint split_from (sep : string) (skip : nat) (s : string)
  : string * list string :=
  match s with
  | EmptyString => (EmptyString, [])
  | String c s' =>
      match skip with
      | S k => split_from sep k s'
      | O =>
          if prefix sep s
          then let (f, fs) := split_from sep (pred (String.length sep)) s' in
               (EmptyString, f :: fs)
          else let (f, fs) := split_from sep 0 s' in
               (String c f, fs)
      end
  end.

Definition split (s sep : string) : list string :=
  let (f, fs) := split_from sep 0 s in f :: fs.

(** [s[k:]] *)
Fixpoint drop (k : nat) (s : string) : string :=
  match k, s with
  | O, _ => s
  | S _, EmptyString => EmptyString
  | S k', String _ s' => drop k' s'
  end.

(** [sep.join(xs)] *)
Fixpoint join (sep : string) (xs : list string) : string :=
  match xs with
  | [] => EmptyString
  | [x] => x
  | x :: xs' => (x ++ sep ++ join sep xs')%string
  end.

(** [c.upper()] for one character.  The lower-case letters of Latin-1 are
    a-z and the accented range 224-254 without the division sign 247.  The
    three remaining cased characters (181, 223, 255) have upper-case forms
    outside the 8-bit range; they are left as they are, which changes no
    comparison with an ASCII word. *)
Definition upper_char (c : ascii) : ascii :=
  let n := nat_of_ascii c in
  if (((97 <=? n) && (n <=? 122))
      || ((224 <=? n) && (n <=? 254) && negb (n =? 247)))%nat
  then ascii_of_nat (n - 32)
  else c.

(** [s.upper()] *)
Fixpoint upper (s : string) : string :=
  match s with
  | EmptyString => EmptyString
  | String c s' => String (upper_char c) (upper s')
  end.

End PyStr.

Import PyStr.

(** ** Exceptions

    The two exceptions the parser's operations can raise: a list index out
    of range and a missing dict key. *)

Inductive exn : Set := IndexError | KeyError.

Inductive Exc (A : Type) : Type :=
| Ok (a : A)
| Raise (e : exn).

Arguments Ok {A} a.
Arguments Raise {A} e.

Definition bind {A B : Type} (m : Exc A) (k : A -> Exc B) : Exc B :=
  match m with
  | Ok a => k a
  | Raise e => Raise e
  end.

Notation "x <- m ;; k" := (bind m (fun x => k))
  (at level 61, m at next level, right associativity).

(** [xs[i]] for [i >= 0] *)
Definition getitem {A : Type} (xs : list A) (i : nat) : Exc A :=
  match nth_error xs i with
  | Some a => Ok a
  | None => Raise IndexError
  end.

(** [bool(xs)] for a list: non-empty. *)
Definition nonempty {A : Type} (xs : list A) : bool :=
  match xs with
  | [] => false
  | _ :: _ => true
  end.

(** ** The data model *)

(** The inner dict of one pillar; its four keys are fixed. *)
Record PillarData : Set := mkPillarData {
  strengths : list string;
  risks : list string;
  risk_level : string;
  recommendations : list string
}.

(** The [results] dict: pillar name to pillar data, in insertion order. *)
Definition Results : Set := list (string * PillarData).

Definition keys (results : Results) : list string := map fst results.
Definition values (results : Results) : list PillarData := map snd results.

Definition empty_pillar : PillarData := mkPillarData [] [] "" [].

Definition PILLARS : list string :=
  [ "Operational Excellence"; "Security"; "Reliability";
    "Performance Efficiency"; "Cost Optimization"; "Sustainability" ].

(** The dict literal of [parse_analysis_results]. *)
Definition initial_results : Results :=
  [ ("Operational Excellence", empty_pillar);
    ("Security", empty_pillar);
    ("Reliability", empty_pillar);
    ("Performance Efficiency", empty_pillar);
    ("Cost Optimization", empty_pillar);
    ("Sustainability", empty_pillar) ].

(** [results[k]] *)
Fixpoint lookup (results : Results) (k : string) : Exc PillarData :=
  match results with
  | [] => Raise KeyError
  | (k', d) :: rest => if String.eqb k' k then Ok d else lookup rest k
  end.

(** [results[k][field] = v]: the inner dict stored under [k] is fetched
    and one of its entries is replaced; [f] is that replacement. *)
Fixpoint update (results : Results) (k : string)
    (f : PillarData -> PillarData) : Exc Results :=
  match results with
  | [] => Raise KeyError
  | (k', d) :: rest =>
      if String.eqb k' k then Ok ((k', f d) :: rest)
      else rest' <- update rest k f ;; Ok ((k', d) :: rest')
  end.

Definition set_strengths (v : list string) (d : PillarData) : PillarData :=
  mkPillarData v (risks d) (risk_level d) (recommendations d).
Definition set_risks (v : list string) (d : PillarData) : PillarData :=
  mkPillarData (strengths d) v (risk_level d) (recommendations d).
Definition set_risk_level (v : string) (d : PillarData) : PillarData :=
  mkPillarData (strengths d) (risks d) v (recommendations d).
Definition set_recommendations (v : list string) (d : PillarData)
  : PillarData :=
  mkPillarData (strengths d) (risks d) (risk_level d) v.

(** ** [parse_analysis_results] *)

Definition NL : string := String "010"%char EmptyString.

(** [[s.strip('- ') for s in cell.split('<br>')]] *)
Definition bullets (cell : string) : list string :=
  map (strip_chars "- ") (split cell "<br>").

(** The loop [for known_pillar in results.keys()] with its [break]. *)
Fixpoint match_pillar (known : list string) (results : Results)
    (parts : list string) (pillar_name : string) : Exc Results :=
  match known with
  | [] => Ok results
  | known_pillar :: known' =>
      if contains known_pillar pillar_name then
        let current_pillar := known_pillar in
        cell1 <- getitem parts 1 ;;
        let strengths := bullets cell1 in
        cell2 <- getitem parts 2 ;;
        let risks := bullets cell2 in
        risk_level <- getitem parts 3 ;;
        cell4 <- getitem parts 4 ;;
        let recommendations := bullets cell4 in
        results <- update results current_pillar
                     (set_strengths (filter truthy strengths)) ;;
        results <- update results current_pillar
                     (set_risks (filter truthy risks)) ;;
        results <- update results current_pillar
                     (set_risk_level risk_level) ;;
        results <- update results current_pillar
                     (set_recommendations (filter truthy recommendations)) ;;
        Ok results
      else match_pillar known' results parts pillar_name
  end.

(** The cells of a table row: split on the delimiter, trim, and keep the
    non-empty ones. *)
Definition row_cells (line : string) : list string :=
  let parts := map strip (split line "|") in
  filter truthy parts.

(** One iteration of [for line in lines]. *)
Definition process_line (results : Results) (line : string) : Exc Results :=
  let line := strip line in
  if negb (truthy line) || startswith line "| ---" then Ok results
  else if startswith line "|" then
    let parts := row_cells line in
    if 5 <=? length parts then
      pillar_name <- getitem parts 0 ;;
      match_pillar (keys results) results parts pillar_name
    else Ok results
  else Ok results.

Fixpoint for_lines (results : Results) (lines : list string) : Exc Results :=
  match lines with
  | [] => Ok results
  | line :: lines' =>
      results' <- process_line results line ;;
      for_lines results' lines'
  end.

(** [any(pillar_data.values())] *)
Definition any_values (d : PillarData) : bool :=
  nonempty (strengths d) || nonempty (risks d)
  || truthy (risk_level d) || nonempty (recommendations d).

(** The validation loop over [results.values()]. *)
Definition has_content (results : Results) : bool :=
  existsb any_values (values results).

(** Calls into the user interface, in the order they are made. *)
Inductive StCall : Set :=
| st_error (msg : string)
| st_write (msg : string)
| st_code (body : string).

(** A finished call: what was shown, and what was returned or raised. *)
Record Run (A : Type) : Type := mkRun {
  ui : list StCall;
  outcome : Exc A
}.

Arguments mkRun {A} ui outcome.
Arguments ui {A} r.
Arguments outcome {A} r.

Definition parse_analysis_results (analysis_text : string)
  : Run (option Results) :=
  if negb (truthy analysis_text) then
    mkRun [st_error "No analysis text received from the API"] (Ok None)
  else
    let shown := [st_write "Raw Response:"; st_code analysis_text] in
    let lines := split analysis_text NL in
    match for_lines initial_results lines with
    | Raise e => mkRun shown (Raise e)
    | Ok results =>
        if has_content results then mkRun shown (Ok (Some results))
        else mkRun
               (shown ++
                [st_error "Failed to parse the analysis results properly"])
               (Ok None)
    end.

(** ** The high-priority view

    The comprehension shared by [display_results] and
    [create_download_link]. *)
Definition high_priority_items (results : Results) : list string :=
  flat_map
    (fun '(pillar, details) =>
       flat_map
         (fun rec =>
            if String.eqb (upper (risk_level details)) "HIGH"
            then [(pillar ++ ": " ++ rec)%string]
            else [])
         (recommendations details))
    results.

(** ** The image gate *)

Definition MAX_SIZE : Z := 5 * 1024 * 1024.

Definition validate_image_size (image_bytes : list Byte.byte) : bool :=
  (Z.of_nat (length image_bytes) <=? MAX_SIZE)%Z.

(** What [main] does with the bytes read from the upload, up to the point
    where the image is opened: reject with an error message, or go on with
    the bytes as they were read. *)
Inductive Gate : Set :=
| Rejected (shown : StCall)
| Accepted (image_bytes : list Byte.byte).

Definition main_gate (image_bytes : list Byte.byte) : Gate :=
  if negb (validate_image_size image_bytes)
  then Rejected (st_error "Image size must be less than 5MB")
  else Accepted image_bytes.

(** ** [convert_to_jpeg]

    The imaging library is an external dependency; the operations the
    function calls on it are the parameters of this section.  They are
    taken to return here; [Raising.normalize_mode] further down is the
    same branch with a conversion and an encoder that can raise. *)

Definition in_modes (m : string) (ms : list string) : bool :=
  existsb (String.eqb m) ms.

Definition white : Z * Z * Z := (255, 255, 255)%Z.

Section ConvertToJpeg.

Variable Image : Type.
(** [image.mode] and [image.size] *)
Variable mode : Image -> string.
Variable size : Image -> nat * nat.
(** [Image.new(mode, size, color)] *)
Variable Image_new : string -> nat * nat -> Z * Z * Z -> Image.
(** [image.split()[-1]] *)
Variable last_band : Image -> Image.
(** [background.paste(image, mask=m)], as the background afterwards *)
Variable paste : Image -> Image -> Image -> Image.
(** [image.convert(mode)] *)
Variable convert : Image -> string -> Image.
(** [image.save(buffer, format='JPEG', quality=q)], as the buffer's value *)
Variable save_jpeg : Image -> Z -> list Byte.byte.

(** The branch on [image.mode]; the result is the image that is saved. *)
Definition normalize_mode (image : Image) : Image :=
  if in_modes (mode image) ["RGBA"; "LA"] then
    let background := Image_new "RGB" (size image) white in
    paste background image (last_band image)
  else if negb (String.eqb (mode image) "RGB") then
    convert image "RGB"
  else image.

Definition convert_to_jpeg (image : Image) : list Byte.byte :=
  save_jpeg (normalize_mode image) 95%Z.

(** The image the first branch builds. *)
Definition on_white (image : Image) : Image :=
  paste (Image_new "RGB" (size image) white) image (last_band image).

End ConvertToJpeg.

(** A free model of the imaging operations: an image is the history of the
    calls that built it. *)
Inductive Picture : Set :=
| Opened (m : string) (sz : nat * nat)
| New (m : string) (sz : nat * nat) (color : Z * Z * Z)
| Band (image : Picture)
| Pasted (background image mask : Picture)
| Converted (image : Picture) (m : string).

Fixpoint picture_mode (p : Picture) : string :=
  match p with
  | Opened m _ => m
  | New m _ _ => m
  | Band _ => "L"
  | Pasted background _ _ => picture_mode background
  | Converted _ m => m
  end.

Fixpoint picture_size (p : Picture) : nat * nat :=
  match p with
  | Opened _ sz => sz
  | New _ sz _ => sz
  | Band image => picture_size image
  | Pasted background _ _ => picture_size background
  | Converted image _ => picture_size image
  end.

Definition picture_normalize : Picture -> Picture :=
  normalize_mode Picture picture_mode picture_size New Band Pasted Converted.

(** ** The specification's readings, for comparison with the code *)

(** The imaging library's modes that carry an alpha band: RGBA and LA, the
    palette mode with alpha PA, and the premultiplied RGBa and La. *)
Definition has_alpha_channel (m : string) : bool :=
  in_modes m ["RGBA"; "LA"; "PA"; "RGBa"; "La"].

(** Drop the empty cells at both ends of a row and keep the others where
    they are. *)
Fixpoint drop_empty_front (cells : list string) : list string :=
  match cells with
  | [] => []
  | c :: cells' => if truthy c then cells else drop_empty_front cells'
  end.

Definition drop_empty_ends (cells : list string) : list string :=
  rev (drop_empty_front (rev (drop_empty_front cells))).

Definition spec_row_cells (line : string) : list string :=
  drop_empty_ends (map strip (split line "|")).

(** Remove one leading bullet marker, a dash and the space after it. *)
Definition strip_one_bullet (fragment : string) : string :=
  match fragment with
  | String "-" (String " " rest) => rest
  | _ => fragment
  end.

Definition spec_fragments (cell : string) : list string :=
  filter truthy
    (map (fun f => strip_one_bullet (strip f)) (split cell "<br>")).

(** The (pillar, recommendation) pairs of the pillars whose risk level is
    HIGH up to case. *)
Definition is_high (d : PillarData) : bool :=
  String.eqb (upper (risk_level d)) "HIGH".

Definition high_priority_pairs (results : Results) : list (string * string) :=
  flat_map
    (fun kv => if is_high (snd kv)
               then map (pair (fst kv)) (recommendations (snd kv))
               else [])
    results.

Definition format_item (item : string * string) : string :=
  (fst item ++ ": " ++ snd item)%string.

(** ** Pure readings of the parser's steps *)

(** A cell's items: the bullets that are left after the empty ones are
    filtered out. *)
Definition cell_items (cell : string) : list string :=
  filter truthy (bullets cell).

(** The fields the parser stores for a row with these cells. *)
Definition row_fields (parts : list string) : PillarData :=
  mkPillarData
    (cell_items (nth 1 parts ""))
    (cell_items (nth 2 parts ""))
    (nth 3 parts "")
    (cell_items (nth 4 parts "")).

(** The first known pillar whose name occurs in the cell. *)
Definition find_pillar (known : list string) (pillar_name : string)
  : option string :=
  find (fun k => contains k pillar_name) known.

(** A line is a table row when, trimmed, it begins with the delimiter; a
    separator row begins with a delimiter, a space and three dashes. *)
Definition is_row (line : string) : bool := startswith (strip line) "|".
Definition is_separator (line : string) : bool :=
  startswith (strip line) "| ---".

Definition first_cell (line : string) : string :=
  nth 0 (row_cells (strip line)) "".

(** The pillar a line is stored under, if it is stored at all. *)
Definition matched_in (known : list string) (line : string)
  : option string :=
  if negb (truthy (strip line)) || is_separator line then None
  else if is_row line then
    if 5 <=? length (row_cells (strip line))
    then find_pillar known (first_cell line)
    else None
  else None.

Definition matched_pillar (line : string) : option string :=
  matched_in PILLARS line.

(** Apply [f] to the data stored under the first key equal to [k]. *)
Fixpoint modify (results : Results) (k : string)
    (f : PillarData -> PillarData) : Results :=
  match results with
  | [] => []
  | (k', d) :: rest =>
      if String.eqb k' k then (k', f d) :: rest
      else (k', d) :: modify rest k f
  end.

(** Replace the data stored under [k]. *)
Definition replace (results : Results) (k : string) (d : PillarData)
  : Results :=
  modify results k (fun _ => d).

(** The effect of one line on the results. *)
Definition store_line (results : Results) (line : string) : Results :=
  match matched_in (keys results) line with
  | Some k => replace results k (row_fields (row_cells (strip line)))
  | None => results
  end.

(** The table the loop leaves behind for a text. *)
Definition table_of (analysis_text : string) : Results :=
  fold_left store_line (split analysis_text NL) initial_results.

(** Every character of [s] satisfies [p]. *)
Fixpoint all_chars (p : ascii -> bool) (s : string) : bool :=
  match s with
  | EmptyString => true
  | String c s' => p c && all_chars p s'
  end.

Definition first_char (s : string) : option ascii :=
  match s with
  | EmptyString => None
  | String c _ => Some c
  end.

Fixpoint last_char (s : string) : option ascii :=
  match s with
  | EmptyString => None
  | String c EmptyString => Some c
  | String _ s' => last_char s'
  end.

Definition rejects (p : ascii -> bool) (c : option ascii) : bool :=
  match c with
  | None => true
  | Some a => negb (p a)
  end.

(** [s] neither begins nor ends with a character satisfying [p]. *)
Definition clean_ends (p : ascii -> bool) (s : string) : bool :=
  rejects p (first_char s) && rejects p (last_char s).

Definition dash_or_space (c : ascii) : bool := mem c "- ".

(** No table row of the text has a known pillar name in its first cell. *)
Definition no_pillar_rows (analysis_text : string) : bool :=
  forallb
    (fun line =>
       implb (is_row line)
             (forallb (fun k => negb (contains k (first_cell line))) PILLARS))
    (split analysis_text NL).

(** Two tables that differ at most in the case of their risk levels. *)
Definition same_up_to_case (results results' : Results) : Prop :=
  Forall2
    (fun x y =>
       fst x = fst y
       /\ recommendations (snd x) = recommendations (snd y)
       /\ upper (risk_level (snd x)) = upper (risk_level (snd y)))
    results results'.

(** ** Sample inputs *)

Definition security_row : string :=
  "| Security | Uses IAM roles<br>- Encrypted at rest | No MFA enforced | High | Enable MFA<br>- Rotate keys |".

Definition security_fields : PillarData :=
  mkPillarData ["Uses IAM roles"; "Encrypted at rest"] ["No MFA enforced"]
               "High" ["Enable MFA"; "Rotate keys"].

(** A reply with prose around a table of a header, a separator row and the
    Security row. *)
Definition security_reply : string :=
  join NL
    [ "Here is the assessment of the diagram.";
      "";
      "| Pillar | Strengths | Risks | Risk Level | Recommendations |";
      "| --- | --- | --- | --- | --- |";
      security_row;
      "";
      "Security deserves attention first." ].

Definition header_row : string :=
  "| Pillar | Strengths | Risks | Risk Level | Recommendations |".

(** A row with an empty second cell and one cell more than the header. *)
Definition shifted_row : string :=
  "| Security | | No MFA | High | Enable MFA | extra |".

Definition dashed_cell : string :=
  "-5% budget headroom<br>-- use Spot -".

(** Two rows for one pillar, with a row for another pillar after them. *)
Definition two_security_rows : string :=
  join NL
    [ "| Security | Old strength | Old risk | Low | Old advice |";
      "| Reliability | Multi-AZ | None | Low | Keep it |";
      security_row;
      "| Cost Optimization | Spot | Idle hosts | Medium | Rightsize |" ].

(** ** More pure readings of the parser *)

(** The last line of [lines] that is stored under pillar [p]. *)
Fixpoint last_match (p : string) (lines : list string) : option string :=
  match lines with
  | [] => None
  | line :: lines' =>
      match last_match p lines' with
      | Some later => Some later
      | None =>
          match matched_pillar line with
          | Some k => if String.eqb k p then Some line else None
          | None => None
          end
      end
  end.

(** A line is stored under some pillar. *)
Definition is_stored (line : string) : bool :=
  match matched_pillar line with
  | Some _ => true
  | None => false
  end.

(** No character of [s] is [c]. *)
Definition free_of (c : ascii) (s : string) : bool :=
  all_chars (fun x => negb (Ascii.eqb x c)) s.

(** ** [display_results] *)

(** What the function puts on the page; [st_line] is a call of
    [st.write]. *)
Inductive Widget : Set :=
| st_subheader (text : string)
| st_table (df_data : list (string * list string))
| st_line (text : string).

(** The body of the loop over [results.items()]. *)
Definition pillar_section (entry : string * PillarData) : list Widget :=
  let '(pillar, details) := entry in
  if any_values details then
    [ st_subheader pillar;
      st_table
        [ ("Strengths", [join NL (strengths details)]);
          ("Risks", [join NL (risks details)]);
          ("Risk Level", [risk_level details]);
          ("Recommendations", [join NL (recommendations details)]) ] ]
  else [].

(** [results] is [None] or a dict; both [None] and the empty dict are
    falsy. *)
Definition display_results (results : option Results) : list Widget :=
  match results with
  | None => []
  | Some results =>
      if negb (nonempty results) then []
      else
        flat_map pillar_section results
        ++ [st_subheader "High Priority Items"]
        ++ (let items := high_priority_items results in
            if nonempty items
            then map (fun item => st_line ("- " ++ item)%string) items
            else [st_line "No high-priority items identified."])
  end.

(** ** [create_download_link] *)





(** * [lambda_v1.py] *)

(** ** Values decoded from JSON

    What [json.loads] returns: [None], a bool, an int, a float, a str, a
    list or a dict with str keys (an association list in insertion
    order). *)

Set Warnings "-register-all".

Inductive PyVal : Set :=
| PNone
| PBool (b : bool)
| PInt (z : Z)
| PFloat (f : PrimFloat.float)
| PStr (s : string)
| PList (items : list PyVal)
| PDict (entries : list (string * PyVal)).

Module InferenceConfig.
Import PrimFloat.
Set Warnings "-inexact-float".
Definition zero : float := 0%float.
Definition temperature : float := 0.7%float.
Definition topP : float := 0.8%float.
End InferenceConfig.

(** The exceptions of this file's operations.  [Exception_] is a bare
    [Exception] with its message; [Foreign] stands for what the service
    client, the HTTP client, the JSON decoder or the imaging library
    raise. *)
Inductive PyExc : Set :=
| Type_error
| Attribute_error
| Key_error
| Index_error
| Timeout_error
| Exception_ (msg : string)
| Foreign (name msg : string).

Inductive Try (A : Type) : Type :=
| Return (a : A)
| Throw (e : PyExc).

Arguments Return {A} a.
Arguments Throw {A} e.

Definition try_bind {A B : Type} (m : Try A) (k : A -> Try B) : Try B :=
  match m with
  | Return a => k a
  | Throw e => Throw e
  end.

Notation "x <~ m ;; k" := (try_bind m (fun x => k))
  (at level 61, m at next level, right associativity).

(** [bool(v)] *)
Definition py_truthy (v : PyVal) : bool :=
  match v with
  | PNone => false
  | PBool b => b
  | PInt z => negb (Z.eqb z 0)
  | PFloat f => negb (PrimFloat.eqb f InferenceConfig.zero)
  | PStr s => truthy s
  | PList items => nonempty items
  | PDict entries => nonempty entries
  end.

(** The value stored under a key of a dict, if there is one. *)
Fixpoint dict_find (entries : list (string * PyVal)) (key : string)
  : option PyVal :=
  match entries with
  | [] => None
  | (k, v) :: rest => if String.eqb k key then Some v else dict_find rest key
  end.

(** [v == s] for a str [s] *)
Definition py_eq_str (v : PyVal) (s : string) : bool :=
  match v with
  | PStr t => String.eqb t s
  | _ => false
  end.

(** [key in v] for a str [key]: a key of a dict, an element of a list, a
    substring of a str; no other value is a container. *)
Definition py_in (key : string) (v : PyVal) : Try bool :=
  match v with
  | PDict entries =>
      Return (match dict_find entries key with Some _ => true | None => false end)
  | PList items => Return (existsb (fun x => py_eq_str x key) items)
  | PStr s => Return (contains key s)
  | _ => Throw Type_error
  end.

(** [v[key]] for a str [key]: only a dict can be indexed by a str. *)
Definition py_item (v : PyVal) (key : string) : Try PyVal :=
  match v with
  | PDict entries =>
      match dict_find entries key with
      | Some x => Return x
      | None => Throw Key_error
      end
  | _ => Throw Type_error
  end.

(** [v[0]]: the first element of a list, the first character of a str;
    a dict has no key [0], and nothing else can be indexed. *)
Definition py_first (v : PyVal) : Try PyVal :=
  match v with
  | PList [] => Throw Index_error
  | PList (x :: _) => Return x
  | PStr EmptyString => Throw Index_error
  | PStr (String c _) => Return (PStr (String c EmptyString))
  | PDict _ => Throw Key_error
  | _ => Throw Type_error
  end.

(** [v.get(key)]: a method of dicts only. *)
Definition py_get (v : PyVal) (key : string) : Try PyVal :=
  match v with
  | PDict entries =>
      Return (match dict_find entries key with Some x => x | None => PNone end)
  | _ => Throw Attribute_error
  end.

(** ** [analyze_architecture] of the Lambda function *)

Definition PROMPT : string :=
  "Please analyze this AWS architecture diagram and provide a detailed assessment following the AWS Well-Architected Framework's six pillars.

For each pillar (Operational Excellence, Security, Reliability, Performance Efficiency, Cost Optimization, and Sustainability), provide:
1. Identified strengths in the architecture
2. Potential risks or gaps
3. Risk level (High/Medium/Low)
4. Specific recommendations for improvement

Format your response exactly as follows for each pillar:
| Pillar | Strengths | Risks | Risk Level | Recommendations |
Include concrete details and specific AWS services in your analysis.".

Definition SYSTEM_TEXT : string :=
  "You are an AWS Well-Architected Framework expert system. Analyze architecture diagrams thoroughly and provide detailed assessments with specific, actionable recommendations.".

Definition model_input (image_base64 : PyVal) : PyVal :=
  PDict
    [ ("schemaVersion", PStr "messages-v1");
      ("messages",
       PList
         [ PDict
             [ ("role", PStr "user");
               ("content",
                PList
                  [ PDict
                      [ ("image",
                         PDict
                           [ ("format", PStr "jpeg");
                             ("source", PDict [("bytes", image_base64)]) ]) ];
                    PDict [("text", PStr PROMPT)] ]) ] ]);
      ("system", PList [PDict [("text", PStr SYSTEM_TEXT)]]);
      ("inferenceConfig",
       PDict
         [ ("maxTokens", PInt 2048);
           ("temperature", PFloat InferenceConfig.temperature);
           ("topP", PFloat InferenceConfig.topP);
           ("stopSequences", PList []) ]) ].

(** The test and the extraction that follow the call of the model. *)
Definition extract_text (model_response : PyVal) : Try PyVal :=
  has_output <~ py_in "output" model_response ;;
  has_message <~ (if has_output
                  then output <~ py_item model_response "output" ;;
                       py_in "message" output
                  else Return false) ;;
  if has_message then
    output <~ py_item model_response "output" ;;
    message <~ py_item output "message" ;;
    content <~ py_item message "content" ;;
    block <~ py_first content ;;
    py_item block "text"
  else Throw (Exception_ "Unexpected response format from model").

(** What every response of the handler carries. *)
Definition CORS_HEADERS : list (string * string) :=
  [ ("Access-Control-Allow-Origin", "*");
    ("Access-Control-Allow-Headers",
     "Content-Type,X-Amz-Date,Authorization,X-Api-Key,X-Amz-Security-Token");
    ("Access-Control-Allow-Methods", "OPTIONS,POST") ].

Record Response : Set := mkResponse {
  statusCode : Z;
  headers : list (string * string);
  body : string
}.

Section Lambda.

(** The service call with what surrounds it: the request is serialised
    and sent, and the body of the answer is read and decoded. *)
Variable invoke_model : PyVal -> Try PyVal.
(** [json.loads] on a str and [json.dumps] on a decoded value *)
Variable json_loads : string -> Try PyVal.
Variable json_dumps : PyVal -> string.
(** [str(e)] *)
Variable str_exc : PyExc -> string.

(** The [except] clause logs and raises the exception again, so that an
    exception of the body is the exception of the call. *)
Definition analyze_architecture (image_base64 : PyVal) : Try PyVal :=
  model_response <~ invoke_model (model_input image_base64) ;;
  extract_text model_response.

(** [json.loads(v)]: a value that is not a str is refused. *)
Definition loads (v : PyVal) : Try PyVal :=
  match v with
  | PStr s => json_loads s
  | _ => Throw Type_error
  end.

(** The body of the [try] block of the handler. *)
Definition handle_post (event : list (string * PyVal)) : Try Response :=
  raw <~ py_item (PDict event) "body" ;;
  body <~ loads raw ;;
  image_base64 <~ py_get body "image" ;;
  if negb (py_truthy image_base64) then
    Return (mkResponse 400 CORS_HEADERS
              (json_dumps (PDict [("error", PStr "Image data is required")])))
  else
    analysis_result <~ analyze_architecture image_base64 ;;
    Return (mkResponse 200 CORS_HEADERS
              (json_dumps (PDict [ ("analysis", analysis_result);
                                   ("raw_response", PBool true) ]))).

(** [event] is the dict the runtime passes in. *)
Definition lambda_handler (event : list (string * PyVal)) : Response :=
  let http_method :=
    match dict_find event "httpMethod" with Some v => v | None => PNone end in
  if py_eq_str http_method "OPTIONS" then
    mkResponse 200 CORS_HEADERS ""
  else
    match handle_post event with
    | Return response => response
    | Throw e =>
        mkResponse 500 CORS_HEADERS
          (json_dumps (PDict [("error", PStr (str_exc e))]))
    end.

End Lambda.

(** ** Sample answers and events *)

(** An answer whose first content element is not a text block. *)
Definition image_first_answer : list (string * PyVal) :=
  [ ("output",
     PDict
       [ ("message",
          PDict
            [ ("role", PStr "assistant");
              ("content",
               PList [ PDict [("image", PNone)];
                       PDict [("text", PStr "| Pillar |")] ]) ]) ]) ].

Definition text_answer (text : string) : PyVal :=
  PDict
    [ ("output",
       PDict
         [ ("message",
            PDict
              [ ("role", PStr "assistant");
                ("content", PList [PDict [("text", PStr text)]]) ]) ]);
      ("stopReason", PStr "end_turn") ].

(** A toy decoder, encoder and service for the examples: the request body
    names what it decodes to. *)
Definition toy_loads (s : string) : Try PyVal :=
  if String.eqb s "image" then Return (PDict [("image", PStr "aGVsbG8=")])
  else if String.eqb s "empty" then Return (PDict [("image", PStr "")])
  else if String.eqb s "list" then Return (PList [])
  else Throw (Foreign "JSONDecodeError" "Expecting value").

Definition toy_dumps (v : PyVal) : string :=
  match v with
  | PDict (("analysis", PStr text) :: _) => text
  | PDict (("error", PStr msg) :: _) => msg
  | _ => ""
  end.

Definition toy_model (request : PyVal) : Try PyVal :=
  Return (text_answer security_row).

Definition toy_str (e : PyExc) : string :=
  match e with
  | Exception_ msg => msg
  | Foreign _ msg => msg
  | _ => "error"
  end.

(** * [analyze_architecture] of the application *)

(** What [requests.post] returns: the status code and what
    [response.json()] gives or raises. *)
Record HttpResponse : Set := mkHttpResponse {
  status_code : Z;
  json : Try PyVal
}.

(** [f"{n}"] for an int *)
Definition format_int (n : Z) : string := NilZero.string_of_int (Z.to_int n).

Module App.

Section Analyze.

(** The imaging library, as for [convert_to_jpeg]; opening may raise. *)
Variable Image : Type.
Variable open_image : list Byte.byte -> Try Image.
Variable mode : Image -> string.
Variable size : Image -> nat * nat.
Variable Image_new : string -> nat * nat -> Z * Z * Z -> Image.
Variable last_band : Image -> Image.
Variable paste : Image -> Image -> Image -> Image.
Variable convert : Image -> string -> Image.
Variable save_jpeg : Image -> Z -> list Byte.byte.
(** [base64.b64encode(b).decode('utf-8')] *)
Variable b64encode : list Byte.byte -> string.
(** [requests.post] to the endpoint with this JSON payload *)
Variable post : PyVal -> Try HttpResponse.
(** [str(e)] and the text an f-string gives for a value *)
Variable str_exc : PyExc -> string.
Variable format_value : PyVal -> string.

(** The payload built from the uploaded bytes. *)
Definition payload_of (image : Image) : PyVal :=
  let jpeg_bytes :=
    convert_to_jpeg Image mode size Image_new last_band paste convert
                    save_jpeg image in
  let base64_image := b64encode jpeg_bytes in
  PDict [("image", PStr base64_image)].

(** The [try] block: the messages shown so far, and the value returned or
    the exception raised. *)
Definition analyze_body (image_bytes : list Byte.byte)
  : list StCall * Try PyVal :=
  match (image <~ open_image image_bytes ;; post (payload_of image)) with
  | Throw e => ([], Throw e)
  | Return response =>
      if Z.eqb (status_code response) 200 then
        ([], data <~ json response ;; py_get data "analysis")
      else
        let shown :=
          [st_error ("API Error: " ++ format_int (status_code response))] in
        match (data <~ json response ;; py_get data "error") with
        | Throw e => (shown, Throw e)
        | Return err =>
            if py_truthy err then
              match (data <~ json response ;; py_item data "error") with
              | Throw e => (shown, Throw e)
              | Return details =>
                  (shown ++
                   [st_error ("Error details: " ++ format_value details)],
                   Return PNone)
              end
            else (shown, Return PNone)
        end
  end.

(** The function with its two [except] clauses: what is shown and what is
    returned. *)
Definition analyze_architecture (image_bytes : list Byte.byte)
  : list StCall * PyVal :=
  match analyze_body image_bytes with
  | (shown, Return v) => (shown, v)
  | (shown, Throw Timeout_error) =>
      (shown ++ [st_error "Request timed out. Please try again."], PNone)
  | (shown, Throw e) =>
      (shown ++ [st_error ("Error: " ++ str_exc e)], PNone)
  end.

End Analyze.

End App.

(** A toy HTTP service for the examples. *)
Definition toy_open (image_bytes : list Byte.byte) : Try Picture :=
  Return (Opened "RGBA" (1, 1)).
Definition toy_save (image : Picture) (quality : Z) : list Byte.byte := [].
Definition toy_b64 (b : list Byte.byte) : string := "aGVsbG8=".
Definition toy_format (v : PyVal) : string :=
  match v with
  | PStr s => s
  | _ => "?"
  end.
Definition toy_post_ok (payload : PyVal) : Try HttpResponse :=
  Return (mkHttpResponse 200 (Return (PDict [("analysis", PStr security_row)]))).
Definition toy_post_timeout (payload : PyVal) : Try HttpResponse :=
  Throw Timeout_error.

(** * [convert_to_jpeg], with a library that can refuse

    [image.convert] raises [ValueError] when the library has no conversion
    between the two modes, and [image.save] raises when the encoder cannot
    write the mode of the image.  The branch on the mode is the one of
    [normalize_mode]; here the conversion and the encoder return a value or
    raise. *)

Module Raising.

Section ConvertToJpeg.

Variable Image : Type.
Variable mode : Image -> string.
Variable size : Image -> nat * nat.
Variable Image_new : string -> nat * nat -> Z * Z * Z -> Image.
Variable last_band : Image -> Image.
Variable paste : Image -> Image -> Image -> Image.
(** [image.convert(mode)] *)
Variable convert : Image -> string -> Try Image.
(** [image.save(buffer, format='JPEG', quality=q)], as the buffer's value *)
Variable save_jpeg : Image -> Z -> Try (list Byte.byte).

Definition normalize_mode (image : Image) : Try Image :=
  if in_modes (mode image) ["RGBA"; "LA"] then
    let background := Image_new "RGB" (size image) white in
    Return (paste background image (last_band image))
  else if negb (String.eqb (mode image) "RGB") then
    convert image "RGB"
  else Return image.

Definition convert_to_jpeg (image : Image) : Try (list Byte.byte) :=
  image <~ normalize_mode image ;;
  save_jpeg image 95%Z.

End ConvertToJpeg.

End Raising.

(** The free model of the imaging operations with the library's refusal:
    it has no conversion from the premultiplied mode La. *)
Definition picture_convert (image : Picture) (m : string) : Try Picture :=
  if String.eqb (picture_mode image) "La"
  then Throw (Foreign "ValueError" "conversion from La to L not supported")
  else Return (Converted image m).

Definition picture_normalize_raising : Picture -> Try Picture :=
  Raising.normalize_mode Picture picture_mode picture_size New Band Pasted
    picture_convert.

(** * Properties *)

(** ** Sanity checks of the string primitives *)

Example split_pipe :
  split "| a || b |" "|" = [""; " a "; ""; " b "; ""].
Proof. reflexivity. Qed.

Example split_br :
  split "x<br>- y<br><br>z<b" "<br>" = ["x"; "- y"; ""; "z<b"].
Proof. reflexivity. Qed.

Example split_empty : split "" "|" = [""].
Proof. reflexivity. Qed.

Example strip_ws :
  strip (String "009" "  a b " ++ String "010" "")%string = "a b".
Proof. reflexivity. Qed.

Example strip_dash : strip_chars "- " "-- a - b -" = "a - b".
Proof. reflexivity. Qed.

Example upper_high : upper "High" = "HIGH".
Proof. reflexivity. Qed.

(** ** Splitting

    [split] cuts at occurrences of the separator and nowhere else: joining
    the fields with the separator gives the text back. *)

Section Splitting.

Variable sep : string.
Hypothesis sep_nonempty : truthy sep = true.

Lemma split_from_skip (s : string) : forall k,
  split_from sep k s = split_from sep 0 (drop k s).
Proof.
  induction s as [|c s IH]; intros [|k]; try reflexivity.
  simpl drop. rewrite <- IH. reflexivity.
Qed.

Lemma prefix_drop (a s : string) :
  prefix a s = true -> s = (a ++ drop (String.length a) s)%string.
Proof.
  revert s. induction a as [|x a IH]; intros s H; [reflexivity|].
  destruct s as [|y s]; simpl in H; [discriminate|].
  destruct (ascii_dec x y) as [->|]; [|discriminate].
  simpl. f_equal. now apply IH.
Qed.

Lemma length_drop (k : nat) : forall s,
  String.length (drop k s) <= String.length s.
Proof.
  induction k as [|k IH]; intros [|c s]; simpl; auto.
Qed.

Lemma join_cons_char (c : ascii) (f : string) (fs : list string) :
  join sep (String c f :: fs) = String c (join sep (f :: fs)).
Proof. destruct fs; reflexivity. Qed.

Lemma join_split_bounded (n : nat) : forall s,
  String.length s <= n -> join sep (split s sep) = s.
Proof.
  unfold split.
  induction n as [|n IH]; intros [|c s] L; try reflexivity;
    [simpl in L; lia|].
  cbn [split_from]. destruct (prefix sep (String c s)) eqn:P.
  - rewrite split_from_skip.
    apply prefix_drop in P.
    destruct sep as [|x sep']; [discriminate|].
    cbn [String.length pred drop] in *.
    specialize (IH (drop (String.length sep') s)).
    destruct (split_from (String x sep') 0 (drop (String.length sep') s))
      as [f fs].
    change (join (String x sep') (EmptyString :: f :: fs))
      with (String x sep' ++ join (String x sep') (f :: fs))%string.
    rewrite IH.
    + symmetry. exact P.
    + pose proof (length_drop (String.length sep') s). simpl in L. lia.
  - specialize (IH s). destruct (split_from sep 0 s) as [f fs].
    rewrite join_cons_char, IH; [reflexivity | simpl in L; lia].
Qed.

Lemma join_split (s : string) : join sep (split s sep) = s.
Proof. now apply (join_split_bounded (String.length s)). Qed.

End Splitting.

(** ** Trimming *)

Section Trimming.

Variable p : ascii -> bool.

Lemma lstrip_by_prefix (s : string) :
  exists pre, s = (pre ++ lstrip_by p s)%string /\ all_chars p pre = true.
Proof.
  induction s as [|c s IH]; simpl.
  - exists EmptyString. split; reflexivity.
  - destruct (p c) eqn:Hc.
    + destruct IH as [pre [E A]]. exists (String c pre). simpl.
      rewrite Hc, A. split; [congruence | reflexivity].
    + exists EmptyString. split; reflexivity.
Qed.

Lemma lstrip_by_first (s : string) :
  rejects p (first_char (lstrip_by p s)) = true.
Proof.
  induction s as [|c s IH]; simpl; [reflexivity|].
  destruct (p c) eqn:Hc; [exact IH|]. simpl. now rewrite Hc.
Qed.

Lemma rstrip_by_suffix (s : string) :
  exists post, s = (rstrip_by p s ++ post)%string /\ all_chars p post = true.
Proof.
  induction s as [|c s IH]; simpl.
  - exists EmptyString. split; reflexivity.
  - destruct IH as [post [E A]].
    destruct (rstrip_by p s) as [|a r] eqn:R.
    + simpl in E. subst post. destruct (p c) eqn:Hc.
      * exists (String c s). simpl. rewrite Hc, A. split; reflexivity.
      * exists s. split; [reflexivity | exact A].
    + exists post. split; [|exact A]. simpl in *. congruence.
Qed.

Lemma rstrip_by_last (s : string) :
  rejects p (last_char (rstrip_by p s)) = true.
Proof.
  induction s as [|c s IH]; simpl; [reflexivity|].
  destruct (rstrip_by p s) as [|a r] eqn:R.
  - destruct (p c) eqn:Hc; simpl; [reflexivity | now rewrite Hc].
  - exact IH.
Qed.

Lemma rstrip_by_first (s : string) :
  rejects p (first_char s) = true ->
  rejects p (first_char (rstrip_by p s)) = true.
Proof.
  destruct s as [|c s]; simpl; [reflexivity|]. intros Hc.
  destruct (rstrip_by p s); [|exact Hc].
  destruct (p c) eqn:Hpc; [discriminate|]. simpl. now rewrite Hpc.
Qed.

Lemma lstrip_by_fixed (s : string) :
  rejects p (first_char s) = true -> lstrip_by p s = s.
Proof.
  destruct s as [|c s]; simpl; [reflexivity|].
  destruct (p c); [discriminate | reflexivity].
Qed.

Lemma rstrip_by_fixed (s : string) :
  rejects p (last_char s) = true -> rstrip_by p s = s.
Proof.
  induction s as [|c s IH]; simpl; [reflexivity|].
  destruct s as [|a s].
  - simpl. intros Hc. destruct (p c); [discriminate | reflexivity].
  - intros H. rewrite (IH H). reflexivity.
Qed.

(** What [strip] leaves: the middle of the string, between a prefix and
    a suffix made of stripped characters, with clean ends. *)
Lemma strip_by_middle (s : string) :
  exists pre post,
    s = (pre ++ strip_by p s ++ post)%string
    /\ all_chars p pre = true /\ all_chars p post = true
    /\ clean_ends p (strip_by p s) = true.
Proof.
  destruct (lstrip_by_prefix s) as [pre [E1 A1]].
  destruct (rstrip_by_suffix (lstrip_by p s)) as [post [E2 A2]].
  exists pre, post. unfold strip_by, clean_ends.
  repeat split; try assumption.
  - rewrite <- E2. exact E1.
  - rewrite rstrip_by_first by apply lstrip_by_first.
    now rewrite rstrip_by_last.
Qed.

Lemma strip_by_fixed (s : string) :
  clean_ends p s = true -> strip_by p s = s.
Proof.
  unfold clean_ends, strip_by. intros H.
  apply andb_true_iff in H as [H1 H2].
  rewrite (lstrip_by_fixed _ H1). now apply rstrip_by_fixed.
Qed.

Lemma strip_by_idempotent (s : string) :
  strip_by p (strip_by p s) = strip_by p s.
Proof.
  apply strip_by_fixed.
  destruct (strip_by_middle s) as [_ [_ [_ [_ [_ H]]]]]. exact H.
Qed.

End Trimming.

(** ** The results dict *)

Lemma getitem_nth {A : Type} (xs : list A) (i : nat) (d : A) :
  i < length xs -> getitem xs i = Ok (nth i xs d).
Proof.
  intros H. unfold getitem.
  destruct (nth_error xs i) as [a|] eqn:E.
  - now rewrite (nth_error_nth _ _ d E).
  - apply nth_error_None in E. lia.
Qed.

Lemma keys_modify (r : Results) k f : keys (modify r k f) = keys r.
Proof.
  induction r as [|[k' d] r IH]; simpl; [reflexivity|].
  destruct (String.eqb k' k); simpl; [reflexivity | now rewrite IH].
Qed.

Lemma update_modify (r : Results) k f :
  In k (keys r) -> update r k f = Ok (modify r k f).
Proof.
  induction r as [|[k' d] r IH]; simpl; [tauto|]. intros H.
  destruct (String.eqb k' k) eqn:E; [reflexivity|].
  destruct H as [H|H]; [apply String.eqb_neq in E; congruence|].
  now rewrite (IH H).
Qed.

Lemma modify_modify (r : Results) k f g :
  modify (modify r k f) k g = modify r k (fun d => g (f d)).
Proof.
  induction r as [|[k' d] r IH]; simpl; [reflexivity|].
  destruct (String.eqb k' k) eqn:E; simpl; rewrite E;
    [reflexivity | now rewrite IH].
Qed.

Lemma lookup_replace_same (r : Results) k d :
  In k (keys r) -> lookup (replace r k d) k = Ok d.
Proof.
  unfold replace.
  induction r as [|[k' d'] r IH]; simpl; [tauto|]. intros H.
  destruct (String.eqb k' k) eqn:E; simpl; rewrite E; [reflexivity|].
  destruct H as [H|H]; [apply String.eqb_neq in E; congruence|].
  now apply IH.
Qed.

Lemma lookup_replace_other (r : Results) k k' d :
  k <> k' -> lookup (replace r k' d) k = lookup r k.
Proof.
  unfold replace. intros N.
  induction r as [|[k0 d0] r IH]; simpl; [reflexivity|].
  destruct (String.eqb k0 k') eqn:E; simpl.
  - apply String.eqb_eq in E. subst k0.
    destruct (String.eqb k' k) eqn:E'; [|reflexivity].
    apply String.eqb_eq in E'. congruence.
  - destruct (String.eqb k0 k); [reflexivity | exact IH].
Qed.

Lemma lookup_in (r : Results) k d : lookup r k = Ok d -> In (k, d) r.
Proof.
  induction r as [|[k' d'] r IH]; simpl; [discriminate|].
  destruct (String.eqb k' k) eqn:E.
  - apply String.eqb_eq in E. intros [= ->]. left. now subst.
  - intros H. right. now apply IH.
Qed.

Lemma find_pillar_in known name k :
  find_pillar known name = Some k -> In k known.
Proof. intros H. now apply find_some in H. Qed.

Lemma find_pillar_none known name :
  (forall k, In k known -> contains k name = false) ->
  find_pillar known name = None.
Proof.
  unfold find_pillar.
  induction known as [|a known IH]; simpl; [reflexivity|]. intros H.
  rewrite (H a) by now left. apply IH. intros k Hk. apply H. now right.
Qed.

(** ** The parser's loop, line by line *)

Lemma match_pillar_store known results parts name :
  incl known (keys results) -> 5 <= length parts ->
  match_pillar known results parts name =
  Ok match find_pillar known name with
     | Some k => replace results k (row_fields parts)
     | None => results
     end.
Proof.
  intros Hk Hlen. unfold find_pillar.
  induction known as [|k known IH]; simpl; [reflexivity|].
  destruct (contains k name).
  - assert (Hin : In k (keys results)) by (apply Hk; now left).
    rewrite (getitem_nth parts _ "") by lia. simpl.
    rewrite (getitem_nth parts _ "") by lia. simpl.
    rewrite (getitem_nth parts _ "") by lia. simpl.
    rewrite (getitem_nth parts _ "") by lia. simpl.
    rewrite update_modify by exact Hin. simpl.
    rewrite update_modify by (now rewrite keys_modify). simpl.
    rewrite update_modify by (now rewrite !keys_modify). simpl.
    rewrite update_modify by (now rewrite !keys_modify). simpl.
    rewrite !modify_modify. reflexivity.
  - apply IH. intros x Hx. apply Hk. now right.
Qed.

Lemma process_line_store results line :
  process_line results line = Ok (store_line results line).
Proof.
  unfold process_line, store_line, matched_in, is_separator, is_row,
    first_cell.
  destruct (negb (truthy (strip line)) || startswith (strip line) "| ---");
    [reflexivity|].
  destruct (startswith (strip line) "|"); [|reflexivity].
  destruct (5 <=? length (row_cells (strip line))) eqn:L; [|reflexivity].
  apply Nat.leb_le in L.
  rewrite (getitem_nth _ _ "") by lia. simpl.
  apply match_pillar_store; [apply incl_refl | exact L].
Qed.

Lemma keys_store_line results line :
  keys (store_line results line) = keys results.
Proof.
  unfold store_line. destruct (matched_in (keys results) line);
    [apply keys_modify | reflexivity].
Qed.

Lemma for_lines_fold lines : forall results,
  for_lines results lines = Ok (fold_left store_line lines results).
Proof.
  induction lines as [|l lines IH]; intros results; simpl; [reflexivity|].
  rewrite process_line_store. simpl. apply IH.
Qed.

Lemma keys_fold_store lines : forall results,
  keys (fold_left store_line lines results) = keys results.
Proof.
  induction lines as [|l lines IH]; intros results; simpl; [reflexivity|].
  rewrite IH. apply keys_store_line.
Qed.

Lemma parse_outcome (analysis_text : string) :
  outcome (parse_analysis_results analysis_text) =
  Ok (if truthy analysis_text && has_content (table_of analysis_text)
      then Some (table_of analysis_text) else None).
Proof.
  unfold parse_analysis_results, table_of.
  destruct (truthy analysis_text); simpl; [|reflexivity].
  rewrite for_lines_fold.
  destruct (has_content _); reflexivity.
Qed.

(** ** The end-to-end example *)

(** C1: parsing the Security row of the specification's example, alone or
    inside a reply with a header, a separator row and prose, stores for
    Security the strengths "Uses IAM roles" and "Encrypted at rest", the
    risk "No MFA enforced", the risk level "High" and the recommendations
    "Enable MFA" and "Rotate keys"; the high-priority view of the result
    holds exactly the two Security recommendations, in that order. *)
Theorem security_row_example :
  forall text, In text [security_row; security_reply] ->
  exists results,
    outcome (parse_analysis_results text) = Ok (Some results)
    /\ lookup results "Security" = Ok security_fields
    /\ high_priority_pairs results =
       [("Security", "Enable MFA"); ("Security", "Rotate keys")]
    /\ high_priority_items results =
       ["Security: Enable MFA"; "Security: Rotate keys"].
Proof.
  intros text H.
  exists (replace initial_results "Security" security_fields).
  destruct H as [<-|[<-|[]]]; repeat split; vm_compute; reflexivity.
Qed.

Lemma security_row_example_witness :
  In security_row [security_row; security_reply]
  /\ exists results,
      outcome (parse_analysis_results security_row) = Ok (Some results)
      /\ lookup results "Security" = Ok security_fields
      /\ high_priority_pairs results =
         [("Security", "Enable MFA"); ("Security", "Rotate keys")]
      /\ high_priority_items results =
         ["Security: Enable MFA"; "Security: Rotate keys"].
Proof.
  split; [left; reflexivity|].
  apply (security_row_example security_row). left. reflexivity.
Defined.

(** ** Totality *)

(** C10: the parser returns on every input string, the empty one
    included, and never raises: each line is processed without an
    exception whatever the table holds, since the accesses to cells 0 to 4
    happen only behind the test for five cells and the keys written to come
    from the table itself; an input that cannot be parsed is reported by
    the returned [None]. *)
Theorem parser_never_raises (analysis_text : string) :
  (exists r, outcome (parse_analysis_results analysis_text) = Ok r)
  /\ (forall results line,
        exists results', process_line results line = Ok results')
  /\ (forall results lines,
        exists results', for_lines results lines = Ok results')
  /\ outcome (parse_analysis_results "") = Ok None.
Proof.
  repeat split.
  - rewrite parse_outcome. eexists. reflexivity.
  - intros results line. rewrite process_line_store. eexists. reflexivity.
  - intros results lines. rewrite for_lines_fold. eexists. reflexivity.
Qed.

(** Without the test for five cells the accesses would raise: a row of
    four cells that names a pillar has no cell 4. *)
Example four_cells_would_raise :
  match_pillar PILLARS initial_results
    ["Security"; "IAM"; "No MFA"; "High"] "Security"
  = Raise IndexError.
Proof. reflexivity. Qed.

Example four_cells_are_skipped :
  process_line initial_results "| Security | IAM | No MFA | High |"
  = Ok initial_results.
Proof. reflexivity. Qed.

(** ** The key set *)

Lemma keys_table_of (analysis_text : string) :
  keys (table_of analysis_text) = PILLARS.
Proof. unfold table_of. now rewrite keys_fold_store. Qed.

Lemma parse_some (analysis_text : string) (results : Results) :
  outcome (parse_analysis_results analysis_text) = Ok (Some results) ->
  results = table_of analysis_text
  /\ truthy analysis_text = true /\ has_content results = true.
Proof.
  rewrite parse_outcome.
  destruct (truthy analysis_text); simpl; [|discriminate].
  destruct (has_content (table_of analysis_text)) eqn:H; [|discriminate].
  intros [= <-]. auto.
Qed.

(** C7: whenever parsing returns a table, its keys are the six known
    pillars, in the order of the dict literal, whatever names occur in the
    input. *)
Theorem parsed_keys_are_the_six_pillars
    (analysis_text : string) (results : Results) :
  outcome (parse_analysis_results analysis_text) = Ok (Some results) ->
  keys results =
  [ "Operational Excellence"; "Security"; "Reliability";
    "Performance Efficiency"; "Cost Optimization"; "Sustainability" ].
Proof.
  intros H. apply parse_some in H as [-> _]. apply keys_table_of.
Qed.

Lemma parsed_keys_witness :
  outcome (parse_analysis_results security_reply)
  = Ok (Some (table_of security_reply))
  /\ keys (table_of security_reply) =
     [ "Operational Excellence"; "Security"; "Reliability";
       "Performance Efficiency"; "Cost Optimization"; "Sustainability" ].
Proof.
  assert (H : outcome (parse_analysis_results security_reply)
              = Ok (Some (table_of security_reply)))
    by (vm_compute; reflexivity).
  split; [exact H|].
  exact (parsed_keys_are_the_six_pillars security_reply _ H).
Defined.

(** ** Unrecognised content *)

Lemma matched_in_some known line k :
  matched_in known line = Some k ->
  is_row line = true /\ is_separator line = false
  /\ 5 <= length (row_cells (strip line))
  /\ find_pillar known (first_cell line) = Some k.
Proof.
  unfold matched_in.
  destruct (truthy (strip line)); cbn [negb orb]; [|easy].
  destruct (is_separator line); [easy|].
  destruct (is_row line); [|easy].
  destruct (5 <=? length (row_cells (strip line))) eqn:L; [|easy].
  apply Nat.leb_le in L. auto.
Qed.

Lemma no_pillar_rows_unmatched (analysis_text line : string) :
  no_pillar_rows analysis_text = true ->
  In line (split analysis_text NL) ->
  matched_pillar line = None.
Proof.
  unfold no_pillar_rows. intros H Hin.
  rewrite forallb_forall in H. specialize (H line Hin).
  destruct (matched_pillar line) as [k|] eqn:M; [|reflexivity].
  apply matched_in_some in M as [R [_ [_ F]]].
  rewrite R in H. cbn [implb] in H. rewrite forallb_forall in H.
  pose proof (find_some _ _ F) as [Hk C].
  specialize (H k Hk). rewrite C in H. discriminate.
Qed.

Lemma fold_store_unmatched lines : forall results,
  keys results = PILLARS ->
  (forall line, In line lines -> matched_pillar line = None) ->
  fold_left store_line lines results = results.
Proof.
  induction lines as [|l lines IH]; intros results K H; simpl;
    [reflexivity|].
  assert (E : store_line results l = results).
  { unfold store_line. rewrite K.
    change (matched_in PILLARS l) with (matched_pillar l).
    rewrite (H l) by now left. reflexivity. }
  rewrite E. apply IH; [exact K|]. intros line Hl. apply H. now right.
Qed.

Lemma parse_run (analysis_text : string) :
  parse_analysis_results analysis_text =
  if truthy analysis_text then
    if has_content (table_of analysis_text) then
      mkRun [st_write "Raw Response:"; st_code analysis_text]
            (Ok (Some (table_of analysis_text)))
    else
      mkRun [st_write "Raw Response:"; st_code analysis_text;
             st_error "Failed to parse the analysis results properly"]
            (Ok None)
  else mkRun [st_error "No analysis text received from the API"] (Ok None).
Proof.
  unfold parse_analysis_results, table_of.
  destruct (truthy analysis_text); simpl; [|reflexivity].
  rewrite for_lines_fold.
  destruct (has_content _); reflexivity.
Qed.

(** C4: when no table row of the input has a known pillar name in its
    first cell, the parser returns [None] and no table, after an error
    message (the parse failure for a text, the missing text for the empty
    string); and when it returns a table, some pillar of that table has a
    non-empty field. *)
Theorem no_recognized_content (analysis_text : string) :
  (no_pillar_rows analysis_text = true ->
   outcome (parse_analysis_results analysis_text) = Ok None
   /\ ui (parse_analysis_results analysis_text) =
      if truthy analysis_text
      then [st_write "Raw Response:"; st_code analysis_text;
            st_error "Failed to parse the analysis results properly"]
      else [st_error "No analysis text received from the API"])
  /\ (forall results,
        outcome (parse_analysis_results analysis_text) = Ok (Some results) ->
        exists k d, In (k, d) results /\ any_values d = true).
Proof.
  split.
  - intros H. rewrite parse_run.
    assert (E : table_of analysis_text = initial_results).
    { unfold table_of. apply fold_store_unmatched; [reflexivity|].
      intros line Hl. now apply (no_pillar_rows_unmatched analysis_text). }
    rewrite E. change (has_content initial_results) with false.
    destruct (truthy analysis_text); split; reflexivity.
  - intros results H. apply parse_some in H as [_ [_ H]].
    unfold has_content, values in H.
    apply existsb_exists in H as [d [Hd A]].
    apply in_map_iff in Hd as [[k d'] [<- Hin]].
    exists k, d'. auto.
Qed.

Lemma no_recognized_content_witness :
  no_pillar_rows header_row = true
  /\ outcome (parse_analysis_results header_row) = Ok None.
Proof.
  split; [reflexivity|].
  apply (proj1 (no_recognized_content header_row)). reflexivity.
Defined.

(** A reply of prose only, with pillar names in it but no table row. *)
Example prose_only :
  outcome (parse_analysis_results
             "The Security pillar looks weak. Reliability is fine.")
  = Ok None.
Proof. reflexivity. Qed.

(** ** Rows for the same pillar *)

Lemma row_cells_truthy (line c : string) :
  In c (row_cells line) -> truthy c = true.
Proof. unfold row_cells. intros H. now apply filter_In in H. Qed.

Lemma lookup_fold_unmatched (p : string) post : forall results,
  keys results = PILLARS ->
  (forall line, In line post -> matched_pillar line <> Some p) ->
  lookup (fold_left store_line post results) p = lookup results p.
Proof.
  induction post as [|l post IH]; intros results K H; simpl; [reflexivity|].
  rewrite IH.
  - unfold store_line. rewrite K.
    change (matched_in PILLARS l) with (matched_pillar l).
    destruct (matched_pillar l) as [k|] eqn:M; [|reflexivity].
    apply lookup_replace_other. intros ->. apply (H l); [now left|exact M].
  - now rewrite keys_store_line.
  - intros line Hl. apply H. now right.
Qed.

Lemma has_content_lookup (results : Results) k d :
  lookup results k = Ok d -> any_values d = true ->
  has_content results = true.
Proof.
  intros L A. unfold has_content, values. apply existsb_exists.
  exists d. split; [|exact A].
  apply in_map_iff. exists (k, d). split; [reflexivity|].
  now apply lookup_in.
Qed.

Lemma stored_row (results : Results) (line p : string) :
  keys results = PILLARS -> matched_pillar line = Some p ->
  lookup (store_line results line) p
  = Ok (row_fields (row_cells (strip line)))
  /\ truthy (risk_level (row_fields (row_cells (strip line)))) = true.
Proof.
  intros K M. unfold store_line. rewrite K.
  change (matched_in PILLARS line) with (matched_pillar line). rewrite M.
  apply matched_in_some in M as [_ [_ [L F]]].
  split.
  - apply lookup_replace_same. rewrite K. now apply find_pillar_in in F.
  - simpl. apply (row_cells_truthy (strip line)). apply nth_In. lia.
Qed.

Lemma split_empty_text : split "" NL = [""].
Proof. reflexivity. Qed.

(** C5: when the lines of the input hold two rows stored under the same
    pillar and no row after the later one is stored under it, the parser
    returns a table whose entry for that pillar is made of the four fields
    of the later row, and of nothing from the earlier one. *)
Theorem last_row_wins
    (analysis_text : string) (pre mid post : list string)
    (a b p : string) :
  split analysis_text NL = pre ++ a :: mid ++ b :: post ->
  matched_pillar a = Some p ->
  matched_pillar b = Some p ->
  (forall line, In line post -> matched_pillar line <> Some p) ->
  exists results,
    outcome (parse_analysis_results analysis_text) = Ok (Some results)
    /\ lookup results p = Ok (row_fields (row_cells (strip b))).
Proof.
  intros S _ Mb Hpost.
  assert (T : truthy analysis_text = true).
  { destruct analysis_text; [|reflexivity].
    rewrite split_empty_text in S. apply (f_equal (@length string)) in S.
    rewrite !length_app in S. simpl in S. rewrite length_app in S.
    simpl in S. lia. }
  assert (L : lookup (table_of analysis_text) p
              = Ok (row_fields (row_cells (strip b)))
              /\ truthy (risk_level (row_fields (row_cells (strip b))))
                 = true).
  { unfold table_of. rewrite S.
    replace (pre ++ a :: mid ++ b :: post)
      with ((pre ++ a :: mid) ++ b :: post)
      by (rewrite <- app_assoc; reflexivity).
    rewrite fold_left_app. cbn [fold_left].
    set (before := fold_left store_line (pre ++ a :: mid) initial_results).
    assert (K : keys before = PILLARS)
      by (unfold before; now rewrite keys_fold_store).
    destruct (stored_row before b p K Mb) as [L1 L2].
    rewrite lookup_fold_unmatched;
      [auto | now rewrite keys_store_line | exact Hpost]. }
  destruct L as [L1 L2].
  exists (table_of analysis_text). split; [|exact L1].
  rewrite parse_outcome, T.
  rewrite (has_content_lookup _ _ _ L1); [reflexivity|].
  unfold any_values. rewrite L2. now rewrite !orb_true_r.
Qed.

Lemma last_row_wins_witness :
  exists results,
    outcome (parse_analysis_results two_security_rows) = Ok (Some results)
    /\ lookup results "Security" = Ok security_fields.
Proof.
  apply (last_row_wins two_security_rows []
           ["| Reliability | Multi-AZ | None | Low | Keep it |"]
           ["| Cost Optimization | Spot | Idle hosts | Medium | Rightsize |"]
           "| Security | Old strength | Old risk | Low | Old advice |"
           security_row "Security").
  - reflexivity.
  - reflexivity.
  - reflexivity.
  - intros line [<-|[]]. vm_compute. discriminate.
Defined.

(** ** The cells of a row *)

Lemma filter_drop_empty_front (cells : list string) :
  filter truthy (drop_empty_front cells) = filter truthy cells.
Proof.
  induction cells as [|c cells IH]; simpl; [reflexivity|].
  destruct (truthy c) eqn:T; simpl; [now rewrite T | exact IH].
Qed.

Lemma filter_drop_empty_ends (cells : list string) :
  filter truthy (drop_empty_ends cells) = filter truthy cells.
Proof.
  unfold drop_empty_ends.
  rewrite filter_rev, filter_drop_empty_front, <- filter_rev, rev_involutive.
  apply filter_drop_empty_front.
Qed.

(** C2, as the specification words it, fails: a row with an empty cell
    between two filled ones loses that cell, and the cells after it move
    one place to the left. *)
Lemma interior_empty_cell_is_dropped :
  startswith shifted_row "|" = true
  /\ spec_row_cells shifted_row
     = ["Security"; ""; "No MFA"; "High"; "Enable MFA"; "extra"]
  /\ row_cells shifted_row
     = ["Security"; "No MFA"; "High"; "Enable MFA"; "extra"]
  /\ row_cells shifted_row <> spec_row_cells shifted_row
  /\ exists results,
       outcome (parse_analysis_results shifted_row) = Ok (Some results)
       /\ lookup results "Security"
          = Ok (mkPillarData ["No MFA"] ["High"] "Enable MFA" ["extra"]).
Proof.
  repeat split; try reflexivity.
  - vm_compute. discriminate.
  - eexists. split; vm_compute; reflexivity.
Qed.

(** C2, amended: for every line that, trimmed, begins with the delimiter
    and is not a separator row, the cells are the trimmed fields between
    the delimiters with every empty one removed, the empty cells between
    filled ones included; the row is stored (under the first known pillar
    named in its first cell, if there is one) exactly when at least five
    cells are left, and it changes nothing otherwise. *)
Theorem row_cells_drop_every_empty_cell (results : Results) (line : string) :
  is_row line = true -> is_separator line = false ->
  let cells := row_cells (strip line) in
  cells = filter truthy (map strip (split (strip line) "|"))
  /\ cells = filter truthy (spec_row_cells (strip line))
  /\ Forall (fun c => truthy c = true /\ strip c = c) cells
  /\ process_line results line =
     Ok (if 5 <=? length cells
         then match find_pillar (keys results) (nth 0 cells "") with
              | Some k => replace results k (row_fields cells)
              | None => results
              end
         else results).
Proof.
  intros R Sep cells. repeat split.
  - unfold spec_row_cells. now rewrite filter_drop_empty_ends.
  - apply Forall_forall. intros c Hc. unfold cells, row_cells in Hc.
    apply filter_In in Hc as [Hc T]. split; [exact T|].
    apply in_map_iff in Hc as [x [<- _]]. apply strip_by_idempotent.
  - rewrite process_line_store. unfold store_line, matched_in, first_cell.
    rewrite R, Sep.
    assert (T : truthy (strip line) = true).
    { unfold is_row, startswith in R. now destruct (strip line). }
    rewrite T. cbn [negb orb]. fold cells.
    destruct (5 <=? length cells); reflexivity.
Qed.

Lemma row_cells_drop_every_empty_cell_witness :
  is_row shifted_row = true /\ is_separator shifted_row = false
  /\ row_cells (strip shifted_row)
     = filter truthy (spec_row_cells (strip shifted_row)).
Proof.
  split; [reflexivity|]. split; [reflexivity|].
  exact (proj1 (proj2 (row_cells_drop_every_empty_cell
                         initial_results shifted_row eq_refl eq_refl))).
Defined.

(** ** The items of a cell *)

(** C3, as the specification words it, fails: the code removes every dash
    and space at both ends of a fragment, not one leading dash-and-space
    marker. *)
Lemma bullets_strip_more_than_one_marker :
  cell_items dashed_cell = ["5% budget headroom"; "use Spot"]
  /\ spec_fragments dashed_cell = ["-5% budget headroom"; "-- use Spot -"]
  /\ cell_items dashed_cell <> spec_fragments dashed_cell.
Proof.
  repeat split; try reflexivity. vm_compute. discriminate.
Qed.

(** C3, amended: for every stored row, the strengths, risks and
    recommendations are the items of cells 1, 2 and 4 and the risk level is
    cell 3; the items of a cell are its fragments between the line-break
    markers, in their order, each with all the dashes and spaces at its two
    ends removed (and nothing else: what is left neither begins nor ends
    with a dash or a space), without the fragments of which nothing is
    left. *)
Theorem cell_items_strip_dashes_and_spaces
    (results : Results) (line k : string) :
  matched_in (keys results) line = Some k ->
  let parts := row_cells (strip line) in
  (exists results',
     process_line results line = Ok results'
     /\ lookup results' k
        = Ok (mkPillarData (cell_items (nth 1 parts ""))
                           (cell_items (nth 2 parts ""))
                           (nth 3 parts "")
                           (cell_items (nth 4 parts ""))))
  /\ (forall cell,
        cell_items cell
        = filter truthy (map (strip_by dash_or_space) (split cell "<br>")))
  /\ (forall fragment,
        exists pre post,
          fragment
          = (pre ++ strip_by dash_or_space fragment ++ post)%string
          /\ all_chars dash_or_space pre = true
          /\ all_chars dash_or_space post = true
          /\ clean_ends dash_or_space (strip_by dash_or_space fragment)
             = true).
Proof.
  intros M parts. repeat split.
  - exists (store_line results line). split; [apply process_line_store|].
    unfold store_line. rewrite M.
    apply matched_in_some in M as [_ [_ [_ F]]].
    apply lookup_replace_same. now apply find_pillar_in in F.
  - intros fragment. apply strip_by_middle.
Qed.

Lemma cell_items_strip_dashes_and_spaces_witness :
  matched_in (keys initial_results) security_row = Some "Security"
  /\ exists results',
       process_line initial_results security_row = Ok results'
       /\ lookup results' "Security" = Ok security_fields.
Proof.
  split; [reflexivity|].
  exact (proj1 (cell_items_strip_dashes_and_spaces
                  initial_results security_row "Security" eq_refl)).
Defined.

(** ** High-priority items *)

Lemma items_of_pairs (results : Results) :
  high_priority_items results
  = map format_item (high_priority_pairs results).
Proof.
  induction results as [|[k d] results IH]; simpl; [reflexivity|].
  rewrite map_app, IH. f_equal. unfold is_high. simpl.
  destruct (String.eqb (upper (risk_level d)) "HIGH").
  - induction (recommendations d) as [|r rs IHr]; simpl;
      [reflexivity | now rewrite IHr].
  - induction (recommendations d) as [|r rs IHr]; simpl;
      [reflexivity | exact IHr].
Qed.

Lemma in_pairs (results : Results) (p r : string) :
  In (p, r) (high_priority_pairs results) <->
  exists d, In (p, d) results
            /\ upper (risk_level d) = "HIGH"
            /\ In r (recommendations d).
Proof.
  unfold high_priority_pairs. rewrite in_flat_map. split.
  - intros [[k d] [Hin H]]. simpl in H. unfold is_high in H.
    destruct (String.eqb (upper (risk_level d)) "HIGH") eqn:E; [|easy].
    apply in_map_iff in H as [r' [[= <- <-] Hr]].
    exists d. apply String.eqb_eq in E. auto.
  - intros [d [Hin [E Hr]]]. exists (p, d). split; [exact Hin|].
    simpl. unfold is_high. rewrite E. simpl. now apply in_map.
Qed.

Lemma pairs_up_to_case (results results' : Results) :
  same_up_to_case results results' ->
  high_priority_pairs results = high_priority_pairs results'.
Proof.
  induction 1 as [|[k d] [k' d'] r r' [Hk [Hr Hu]] _ IH]; simpl;
    [reflexivity|].
  simpl in *. subst k'. unfold is_high. now rewrite Hu, Hr, IH.
Qed.

Lemma same_up_to_case_refl (results : Results) :
  same_up_to_case results results.
Proof. induction results; constructor; auto. Qed.

Lemma same_up_to_case_modify (results : Results) (k a b : string) :
  upper a = upper b ->
  same_up_to_case (modify results k (set_risk_level a))
                  (modify results k (set_risk_level b)).
Proof.
  intros U. induction results as [|[k' d] r IH]; simpl; [constructor|].
  destruct (String.eqb k' k); constructor; simpl; auto.
  apply same_up_to_case_refl.
Qed.

(** C6: the high-priority view of any table lists, in the order of the
    table and of each pillar's recommendations, one item for every
    recommendation of every pillar whose risk level upper-cases to "HIGH",
    and nothing else; it is empty when no risk level does; and it does not
    depend on the case of the risk levels, so that "high", "High" and
    "HIGH" at a pillar give the same items. *)
Theorem high_priority_items_exact (results : Results) :
  high_priority_items results
  = map format_item (high_priority_pairs results)
  /\ (forall p r,
        In (p, r) (high_priority_pairs results) <->
        exists d, In (p, d) results
                  /\ upper (risk_level d) = "HIGH"
                  /\ In r (recommendations d))
  /\ ((forall p d, In (p, d) results -> upper (risk_level d) <> "HIGH") ->
      high_priority_pairs results = [] /\ high_priority_items results = [])
  /\ (forall results',
        same_up_to_case results results' ->
        high_priority_items results = high_priority_items results')
  /\ (forall k level,
        In level ["high"; "High"; "HIGH"] ->
        high_priority_items (modify results k (set_risk_level level))
        = high_priority_items (modify results k (set_risk_level "HIGH"))).
Proof.
  split; [apply items_of_pairs|].
  split; [apply in_pairs|].
  assert (C : forall a b, same_up_to_case a b ->
                          high_priority_items a = high_priority_items b).
  { intros a b H. rewrite !items_of_pairs. f_equal.
    now apply pairs_up_to_case. }
  repeat split.
  - destruct (high_priority_pairs results) as [|[p r] l] eqn:E;
      [reflexivity|].
    assert (Hin : In (p, r) (high_priority_pairs results))
      by (rewrite E; now left).
    apply in_pairs in Hin as [d [Hd [U _]]]. now destruct (H p d).
  - rewrite items_of_pairs.
    destruct (high_priority_pairs results) as [|[p r] l] eqn:E;
      [reflexivity|].
    assert (Hin : In (p, r) (high_priority_pairs results))
      by (rewrite E; now left).
    apply in_pairs in Hin as [d [Hd [U _]]]. now destruct (H p d).
  - exact (C results).
  - intros k level Hl. apply C. apply same_up_to_case_modify.
    destruct Hl as [<-|[<-|[<-|[]]]]; reflexivity.
Qed.

(** ** The size of the upload *)

(** C8: the size check of [main] is made on the bytes as they were read,
    before the image is opened or converted; it rejects them, with an
    error message, exactly when there are more than 5 * 1024 * 1024 of
    them, and lets them through unchanged otherwise, a payload of exactly
    that size included. *)
Theorem image_size_gate (image_bytes : list Byte.byte) :
  let size := Z.of_nat (length image_bytes) in
  MAX_SIZE = 5242880%Z
  /\ validate_image_size image_bytes = (size <=? 5 * 1024 * 1024)%Z
  /\ (validate_image_size image_bytes = false <-> (size > 5242880)%Z)
  /\ (validate_image_size image_bytes = true <-> (size <= 5242880)%Z)
  /\ main_gate image_bytes
     = if (5242880 <? size)%Z
       then Rejected (st_error "Image size must be less than 5MB")
       else Accepted image_bytes.
Proof.
  intros size. unfold main_gate, validate_image_size.
  change MAX_SIZE with 5242880%Z. change (5 * 1024 * 1024)%Z with 5242880%Z.
  fold size. repeat split.
  - intros H. apply Z.leb_gt in H. lia.
  - intros H. apply Z.leb_gt. lia.
  - intros H. now apply Z.leb_le.
  - intros H. now apply Z.leb_le.
  - destruct (Z.leb_spec size 5242880), (Z.ltb_spec 5242880 size);
      simpl; try reflexivity; lia.
Qed.

(** ** The colour mode of the encoded image *)

Section RaisingFacts.

Variable Image : Type.
Variable mode : Image -> string.
Variable size : Image -> nat * nat.
Variable Image_new : string -> nat * nat -> Z * Z * Z -> Image.
Variable last_band : Image -> Image.
Variable paste : Image -> Image -> Image -> Image.
Variable convert : Image -> string -> Try Image.

Local Abbreviation normalize :=
  (Raising.normalize_mode Image mode size Image_new last_band paste convert).

(** The image goes to the paste on white exactly when its mode passes the
    guard; any other image that is not RGB goes to the conversion, and what
    the conversion gives or raises is what the branch gives or raises. *)
Lemma guard_decides_the_branch (image : Image) :
  (in_modes (mode image) ["RGBA"; "LA"] = true ->
   normalize image
   = Return (on_white Image size Image_new last_band paste image))
  /\ (in_modes (mode image) ["RGBA"; "LA"] = false ->
      mode image <> "RGB" ->
      normalize image = convert image "RGB")
  /\ (mode image = "RGB" -> normalize image = Return image).
Proof.
  unfold Raising.normalize_mode, on_white.
  destruct (in_modes (mode image) ["RGBA"; "LA"]) eqn:A.
  - repeat split; try discriminate.
    intros E. rewrite E in A. discriminate.
  - destruct (String.eqb (mode image) "RGB") eqn:E; simpl.
    + apply String.eqb_eq in E. repeat split; try discriminate. congruence.
    + apply String.eqb_neq in E. repeat split; try discriminate. congruence.
Qed.

(** Where the conversion returns what a total [convert] gives, the branch
    returns what [normalize_mode] gives. *)
Lemma raising_agrees_with_total
    (total : Image -> string -> Image) (image : Image) :
  (forall i m, convert i m = Return (total i m)) ->
  normalize image
  = Return (normalize_mode Image mode size Image_new last_band paste total
              image).
Proof.
  intros H. unfold Raising.normalize_mode, normalize_mode.
  destruct (in_modes (mode image) ["RGBA"; "LA"]); [reflexivity|].
  destruct (negb (String.eqb (mode image) "RGB")); [apply H | reflexivity].
Qed.

End RaisingFacts.

(** C9, on the code: an image in the palette mode with alpha, PA, has an
    alpha band and does not pass the guard; it is handed to the conversion
    to RGB and is not pasted on a white background, while an image in the
    mode LA is.  An image in the premultiplied mode La does not pass the
    guard either, and for it the conversion raises, so that nothing is
    encoded whatever the encoder does. *)
Theorem alpha_outside_the_guard_is_not_composited :
  let image := Opened "PA" (2, 2) in
  has_alpha_channel (picture_mode image) = true
  /\ in_modes (picture_mode image) ["RGBA"; "LA"] = false
  /\ picture_normalize_raising image = Return (Converted image "RGB")
  /\ picture_normalize_raising image
     <> Return (on_white Picture picture_size New Band Pasted image)
  /\ picture_normalize_raising (Opened "LA" (2, 2))
     = Return (on_white Picture picture_size New Band Pasted
                 (Opened "LA" (2, 2)))
  /\ has_alpha_channel (picture_mode (Opened "La" (2, 2))) = true
  /\ (forall save_jpeg,
        Raising.convert_to_jpeg Picture picture_mode picture_size New Band
          Pasted picture_convert save_jpeg (Opened "La" (2, 2))
        = Throw (Foreign "ValueError"
                         "conversion from La to L not supported")).
Proof.
  repeat split; try reflexivity. vm_compute. discriminate.
Qed.

(** * Further properties of the parser *)

(** ** What a pillar's entry is made of *)

Lemma nodup_pillars : NoDup PILLARS.
Proof.
  unfold PILLARS.
  repeat (constructor; [simpl; intuition discriminate|]). constructor.
Qed.

Lemma lookup_of_in (r : Results) k d :
  NoDup (keys r) -> In (k, d) r -> lookup r k = Ok d.
Proof.
  induction r as [|[k' d'] r IH]; simpl; [tauto|].
  intros N [H|H].
  - injection H as -> ->. now rewrite String.eqb_refl.
  - inversion N as [|? ? Hn N']; subst.
    destruct (String.eqb k' k) eqn:E; [|now apply IH].
    apply String.eqb_eq in E. subst k'. exfalso. apply Hn.
    change k with (fst (k, d)). now apply in_map.
Qed.

Lemma lookup_initial (p : string) :
  In p PILLARS -> lookup initial_results p = Ok empty_pillar.
Proof.
  simpl. intros H.
  repeat (destruct H as [<-|H]; [reflexivity|]). contradiction.
Qed.

Lemma lookup_store_line (r : Results) (line p : string) :
  keys r = PILLARS ->
  lookup (store_line r line) p
  = match matched_pillar line with
    | Some k => if String.eqb k p
                then Ok (row_fields (row_cells (strip line)))
                else lookup r p
    | None => lookup r p
    end.
Proof.
  intros K. unfold store_line. rewrite K.
  change (matched_in PILLARS line) with (matched_pillar line).
  destruct (matched_pillar line) as [k|] eqn:M; [|reflexivity].
  destruct (String.eqb k p) eqn:E.
  - apply String.eqb_eq in E. subst k.
    apply lookup_replace_same. rewrite K.
    apply matched_in_some in M as [_ [_ [_ F]]].
    now apply find_pillar_in in F.
  - apply lookup_replace_other. apply String.eqb_neq in E. congruence.
Qed.

Lemma lookup_fold_last (p : string) lines : forall r,
  keys r = PILLARS ->
  lookup (fold_left store_line lines r) p
  = match last_match p lines with
    | Some line => Ok (row_fields (row_cells (strip line)))
    | None => lookup r p
    end.
Proof.
  induction lines as [|l lines IH]; intros r K; simpl; [reflexivity|].
  rewrite IH by (now rewrite keys_store_line).
  destruct (last_match p lines); [reflexivity|].
  rewrite lookup_store_line by exact K.
  destruct (matched_pillar l) as [k|]; [|reflexivity].
  destruct (String.eqb k p); reflexivity.
Qed.

Lemma last_match_some (p : string) lines line :
  last_match p lines = Some line ->
  In line lines /\ matched_pillar line = Some p.
Proof.
  induction lines as [|l lines IH]; simpl; [discriminate|].
  destruct (last_match p lines) as [later|].
  - intros [= <-]. destruct (IH eq_refl). auto.
  - destruct (matched_pillar l) as [k|] eqn:M; [|discriminate].
    destruct (String.eqb k p) eqn:E; [|discriminate].
    apply String.eqb_eq in E. subst k. intros [= <-]. auto.
Qed.

Lemma last_match_none (p : string) lines :
  last_match p lines = None ->
  forall line, In line lines -> matched_pillar line <> Some p.
Proof.
  induction lines as [|l lines IH]; simpl; [tauto|].
  destruct (last_match p lines) as [later|]; [discriminate|].
  intros H line [<-|Hin]; [|now apply IH].
  destruct (matched_pillar l) as [k|]; [|discriminate].
  destruct (String.eqb k p) eqn:E; [discriminate|].
  apply String.eqb_neq in E. congruence.
Qed.

Lemma row_fields_have_content (line k : string) :
  matched_pillar line = Some k ->
  truthy (risk_level (row_fields (row_cells (strip line)))) = true
  /\ any_values (row_fields (row_cells (strip line))) = true.
Proof.
  intros M. apply matched_in_some in M as [_ [_ [L _]]].
  assert (T : truthy (risk_level (row_fields (row_cells (strip line))))
              = true).
  { simpl. apply (row_cells_truthy (strip line)). apply nth_In. lia. }
  split; [exact T|]. unfold any_values. rewrite T.
  now rewrite !orb_true_r.
Qed.

Lemma lookup_table_of (analysis_text p : string) :
  In p PILLARS ->
  lookup (table_of analysis_text) p
  = Ok match last_match p (split analysis_text NL) with
       | Some line => row_fields (row_cells (strip line))
       | None => empty_pillar
       end.
Proof.
  intros Hp. unfold table_of.
  rewrite lookup_fold_last by reflexivity.
  destruct (last_match p _); [reflexivity | now apply lookup_initial].
Qed.

(** X1: a pillar's entry in the returned table is the default, all
    fields empty, when no line of the text is stored under that pillar, and
    otherwise the fields of the last line stored under it, however many
    lines were stored under it before. *)
Theorem entry_is_last_stored_row
    (analysis_text : string) (results : Results) (p : string) :
  outcome (parse_analysis_results analysis_text) = Ok (Some results) ->
  In p PILLARS ->
  lookup results p
  = Ok match last_match p (split analysis_text NL) with
       | Some line => row_fields (row_cells (strip line))
       | None => empty_pillar
       end.
Proof.
  intros H Hp. apply parse_some in H as [-> _].
  now apply lookup_table_of.
Qed.

Lemma entry_is_last_stored_row_witness :
  lookup (table_of two_security_rows) "Security" = Ok security_fields
  /\ lookup (table_of two_security_rows) "Sustainability" = Ok empty_pillar.
Proof.
  assert (H : outcome (parse_analysis_results two_security_rows)
              = Ok (Some (table_of two_security_rows)))
    by (vm_compute; reflexivity).
  split.
  - apply (entry_is_last_stored_row two_security_rows _ "Security" H).
    simpl. tauto.
  - apply (entry_is_last_stored_row two_security_rows _ "Sustainability" H).
    simpl. tauto.
Defined.

Lemma table_entry_origin (analysis_text k : string) (d : PillarData) :
  In (k, d) (table_of analysis_text) ->
  d = empty_pillar
  \/ exists line,
       In line (split analysis_text NL)
       /\ matched_pillar line = Some k
       /\ d = row_fields (row_cells (strip line)).
Proof.
  intros Hin.
  pose proof (keys_table_of analysis_text) as K.
  assert (Hk : In k PILLARS).
  { rewrite <- K. change k with (fst (k, d)). now apply in_map. }
  pose proof (lookup_table_of analysis_text k Hk) as L.
  rewrite (lookup_of_in (table_of analysis_text) k d) in L;
    [|rewrite K; apply nodup_pillars | exact Hin].
  injection L as ->.
  destruct (last_match k _) as [line|] eqn:M; [|now left].
  right. exists line. apply last_match_some in M as [M1 M2]. auto.
Qed.

(** X2: every entry of a returned table is either the default or the
    fields of one line of the text that is stored under that very pillar:
    nothing in the table comes from anywhere else. *)
Theorem entries_come_from_rows
    (analysis_text : string) (results : Results) (k : string)
    (d : PillarData) :
  outcome (parse_analysis_results analysis_text) = Ok (Some results) ->
  In (k, d) results ->
  d = empty_pillar
  \/ exists line,
       In line (split analysis_text NL)
       /\ matched_pillar line = Some k
       /\ d = row_fields (row_cells (strip line)).
Proof.
  intros H Hin. apply parse_some in H as [-> _].
  now apply table_entry_origin.
Qed.

Lemma entries_come_from_rows_witness :
  security_fields = empty_pillar
  \/ exists line,
       In line (split security_reply NL)
       /\ matched_pillar line = Some "Security"
       /\ security_fields = row_fields (row_cells (strip line)).
Proof.
  apply (entries_come_from_rows security_reply
           (table_of security_reply) "Security" security_fields).
  - vm_compute. reflexivity.
  - vm_compute. tauto.
Defined.

(** ** When the parser returns a table *)

Lemma is_stored_matched (line : string) :
  is_stored line = true <-> exists k, matched_pillar line = Some k.
Proof.
  unfold is_stored. destruct (matched_pillar line) as [k|].
  - split; [eauto | reflexivity].
  - split; [discriminate | intros [k H]; discriminate].
Qed.

Lemma has_content_table (analysis_text : string) :
  has_content (table_of analysis_text) = true <->
  exists line, In line (split analysis_text NL) /\ is_stored line = true.
Proof.
  split.
  - intros H. unfold has_content, values in H.
    apply existsb_exists in H as [d [Hd A]].
    apply in_map_iff in Hd as [[k d'] [<- Hin]]. simpl in A.
    destruct (table_entry_origin analysis_text k d' Hin)
      as [->|[line [Hl [M _]]]]; [discriminate|].
    exists line. split; [exact Hl|]. apply is_stored_matched. eauto.
  - intros [line [Hl S]]. apply is_stored_matched in S as [k M].
    assert (Hk : In k PILLARS).
    { apply matched_in_some in M as [_ [_ [_ F]]].
      now apply find_pillar_in in F. }
    pose proof (lookup_table_of analysis_text k Hk) as L.
    destruct (last_match k (split analysis_text NL)) as [last|] eqn:E.
    + apply last_match_some in E as [_ M'].
      apply (has_content_lookup _ _ _ L).
      now apply (row_fields_have_content last k).
    + exfalso. now apply (last_match_none k _ E line Hl).
Qed.

Lemma stored_line_text_nonempty (analysis_text line : string) :
  In line (split analysis_text NL) -> is_stored line = true ->
  truthy analysis_text = true.
Proof.
  destruct analysis_text; [|reflexivity].
  intros [<-|[]]. discriminate.
Qed.

(** X3: the parser returns a table exactly when some line of the text
    is stored, that is, is a row of at least five cells, not a separator
    row, whose first cell contains a known pillar name; in every other case
    it returns [None]. *)
Theorem table_iff_some_row_is_stored (analysis_text : string) :
  (outcome (parse_analysis_results analysis_text)
   = Ok (Some (table_of analysis_text))
   <-> exists line,
         In line (split analysis_text NL) /\ is_stored line = true)
  /\ (outcome (parse_analysis_results analysis_text) = Ok None
      <-> forall line,
            In line (split analysis_text NL) -> is_stored line = false).
Proof.
  rewrite parse_outcome.
  destruct (has_content (table_of analysis_text)) eqn:C.
  - pose proof (proj1 (has_content_table analysis_text) C)
      as [line [Hl S]].
    rewrite (stored_line_text_nonempty analysis_text line Hl S). simpl.
    split; split; try easy.
    + intros _. eauto.
    + intros H. rewrite (H line Hl) in S. discriminate.
  - rewrite andb_false_r. split; split; try easy.
    + intros H. apply has_content_table in H. congruence.
    + intros _ line Hl. destruct (is_stored line) eqn:S; [|reflexivity].
      assert (has_content (table_of analysis_text) = true)
        by (apply has_content_table; eauto).
      congruence.
Qed.

(** ** Lines that are not stored *)

Lemma store_line_unstored (r : Results) (line : string) :
  keys r = PILLARS -> is_stored line = false -> store_line r line = r.
Proof.
  intros K S. unfold store_line. rewrite K.
  change (matched_in PILLARS line) with (matched_pillar line).
  unfold is_stored in S. now destruct (matched_pillar line).
Qed.

Lemma fold_store_filter lines : forall r,
  keys r = PILLARS ->
  fold_left store_line lines r
  = fold_left store_line (filter is_stored lines) r.
Proof.
  induction lines as [|l lines IH]; intros r K; simpl; [reflexivity|].
  destruct (is_stored l) eqn:S; simpl.
  - apply IH. now rewrite keys_store_line.
  - rewrite store_line_unstored by assumption. now apply IH.
Qed.

(** X4: only the stored lines of a text count, and only their order:
    two texts whose stored lines are the same, in the same order, give the
    same result, whatever prose, headers, separator rows, short rows or
    blank lines stand around and between them. *)
Theorem only_stored_lines_count (text1 text2 : string) :
  filter is_stored (split text1 NL) = filter is_stored (split text2 NL) ->
  outcome (parse_analysis_results text1)
  = outcome (parse_analysis_results text2).
Proof.
  intros H.
  assert (T : table_of text1 = table_of text2).
  { unfold table_of.
    rewrite (fold_store_filter (split text1 NL)) by reflexivity.
    rewrite (fold_store_filter (split text2 NL)) by reflexivity.
    now rewrite H. }
  rewrite !parse_outcome, T.
  destruct (has_content (table_of text2)) eqn:C;
    [|now rewrite !andb_false_r].
  assert (C1 : has_content (table_of text1) = true) by now rewrite T.
  apply has_content_table in C as [l2 [H2 S2]].
  apply has_content_table in C1 as [l1 [H1 S1]].
  rewrite (stored_line_text_nonempty text1 l1 H1 S1).
  rewrite (stored_line_text_nonempty text2 l2 H2 S2).
  reflexivity.
Qed.

Lemma only_stored_lines_count_witness :
  outcome (parse_analysis_results security_row)
  = outcome (parse_analysis_results security_reply).
Proof.
  apply (only_stored_lines_count security_row security_reply).
  vm_compute. reflexivity.
Defined.

(** ** White space around a line *)

Section Padding.

Variable p : ascii -> bool.

Lemma lstrip_by_pad (pre s : string) :
  all_chars p pre = true ->
  lstrip_by p (pre ++ s)%string = lstrip_by p s.
Proof.
  induction pre as [|c pre IH]; simpl; [reflexivity|].
  intros H. apply andb_true_iff in H as [Hc H]. rewrite Hc. now apply IH.
Qed.

Lemma rstrip_by_all (s : string) :
  all_chars p s = true -> rstrip_by p s = EmptyString.
Proof.
  induction s as [|c s IH]; simpl; [reflexivity|].
  intros H. apply andb_true_iff in H as [Hc H].
  rewrite (IH H). now rewrite Hc.
Qed.

Lemma rstrip_by_pad (s post : string) :
  all_chars p post = true ->
  rstrip_by p (s ++ post)%string = rstrip_by p s.
Proof.
  intros H. induction s as [|c s IH]; simpl.
  - now apply rstrip_by_all.
  - now rewrite IH.
Qed.

Lemma lstrip_by_all (s : string) :
  all_chars p s = true -> lstrip_by p s = EmptyString.
Proof.
  induction s as [|c s IH]; simpl; [reflexivity|].
  intros H. apply andb_true_iff in H as [Hc H]. rewrite Hc. now apply IH.
Qed.

Lemma strip_by_pad_right (s post : string) :
  all_chars p post = true ->
  strip_by p (s ++ post)%string = strip_by p s.
Proof.
  intros H. unfold strip_by. induction s as [|c s IH]; simpl.
  - now rewrite lstrip_by_all.
  - destruct (p c); [exact IH|].
    change (String c (s ++ post)%string) with (String c s ++ post)%string.
    now apply rstrip_by_pad.
Qed.

Lemma strip_by_pad (pre s post : string) :
  all_chars p pre = true -> all_chars p post = true ->
  strip_by p (pre ++ s ++ post)%string = strip_by p s.
Proof.
  intros H1 H2. unfold strip_by. rewrite lstrip_by_pad by exact H1.
  now apply strip_by_pad_right.
Qed.

End Padding.

(** X5: white space before and after a line, indentation and a carriage
    return left by a CRLF line ending included, changes nothing in how the
    line is processed. *)
Theorem padding_is_ignored (results : Results) (pre line post : string) :
  all_chars isspace pre = true -> all_chars isspace post = true ->
  process_line results (pre ++ line ++ post)%string
  = process_line results line.
Proof.
  intros H1 H2. unfold process_line.
  change (strip (pre ++ line ++ post)%string)
    with (strip_by isspace (pre ++ line ++ post)%string).
  rewrite strip_by_pad by assumption. reflexivity.
Qed.

Lemma padding_is_ignored_witness :
  process_line initial_results
    ("  " ++ security_row ++ String "013" "")%string
  = process_line initial_results security_row.
Proof.
  apply (padding_is_ignored initial_results "  " security_row
           (String "013" "")); reflexivity.
Defined.

(** ** Pillar names inside a first cell *)

Lemma prefix_app (k post : string) : prefix k (k ++ post)%string = true.
Proof.
  induction k as [|c k IH]; simpl; [now destruct post|].
  destruct (ascii_dec c c); [exact IH | congruence].
Qed.

Lemma contains_middle (k pre post : string) :
  contains k (pre ++ k ++ post)%string = true.
Proof.
  induction pre as [|c pre IH].
  - change (("" ++ k ++ post)%string) with ((k ++ post)%string).
    pose proof (prefix_app k post) as H.
    destruct (k ++ post)%string; cbn [contains]; now rewrite H.
  - change ((String c pre ++ k ++ post)%string)
      with (String c (pre ++ k ++ post)%string).
    cbn [contains]. rewrite IH. apply orb_true_r.
Qed.

Lemma find_pillar_some known name k :
  In k known -> contains k name = true ->
  exists k', find_pillar known name = Some k'.
Proof.
  unfold find_pillar. intros Hin C.
  destruct (find (fun k0 => contains k0 name) known) as [k'|] eqn:F;
    [eauto|].
  pose proof (find_none _ _ F k Hin) as N. simpl in N. congruence.
Qed.

Lemma wrapped_name_is_matched (line k pre post : string) :
  is_row line = true -> is_separator line = false ->
  5 <= length (row_cells (strip line)) ->
  first_cell line = (pre ++ k ++ post)%string ->
  In k PILLARS ->
  exists k',
    matched_pillar line = Some k'
    /\ In k' PILLARS /\ contains k' (first_cell line) = true.
Proof.
  intros R S L F Hk.
  assert (T : truthy (strip line) = true).
  { unfold is_row, startswith in R. now destruct (strip line). }
  destruct (find_pillar_some PILLARS (first_cell line) k Hk) as [k' E].
  { rewrite F. apply contains_middle. }
  exists k'. unfold matched_pillar, matched_in.
  rewrite T, S, R. cbn [negb orb].
  apply Nat.leb_le in L. rewrite L.
  split; [exact E|]. unfold find_pillar in E.
  apply find_some in E. exact E.
Qed.

(** X6: a row of at least five cells that is not a separator row is
    stored as soon as its first cell contains a known pillar name, with
    anything before and after the name (markup, numbering, more words):
    processing the line puts the row's four fields into the entry of a
    known pillar whose name the cell contains, and a text with such a line
    makes the parser return a table. *)
Theorem pillar_name_may_be_wrapped
    (analysis_text : string) (results : Results)
    (line k pre post : string) :
  keys results = PILLARS ->
  In line (split analysis_text NL) ->
  is_row line = true -> is_separator line = false ->
  5 <= length (row_cells (strip line)) ->
  first_cell line = (pre ++ k ++ post)%string ->
  In k PILLARS ->
  exists k' results' table,
    In k' PILLARS /\ contains k' (first_cell line) = true
    /\ process_line results line = Ok results'
    /\ lookup results' k'
       = Ok (mkPillarData
               (cell_items (nth 1 (row_cells (strip line)) ""))
               (cell_items (nth 2 (row_cells (strip line)) ""))
               (nth 3 (row_cells (strip line)) "")
               (cell_items (nth 4 (row_cells (strip line)) "")))
    /\ outcome (parse_analysis_results analysis_text) = Ok (Some table).
Proof.
  intros K Hl R S L F Hk.
  destruct (wrapped_name_is_matched line k pre post R S L F Hk)
    as [k' [M [Hk' C]]].
  exists k', (store_line results line), (table_of analysis_text).
  split; [exact Hk'|]. split; [exact C|].
  split; [apply process_line_store|].
  split; [exact (proj1 (stored_row results line k' K M))|].
  assert (St : is_stored line = true)
    by (apply is_stored_matched; eauto).
  rewrite parse_outcome.
  rewrite (stored_line_text_nonempty analysis_text line Hl St).
  assert (H : has_content (table_of analysis_text) = true)
    by (apply has_content_table; eauto).
  now rewrite H.
Qed.

Lemma pillar_name_may_be_wrapped_witness :
  exists k' results' table,
    In k' PILLARS
    /\ contains k'
         (first_cell "| 2. **Security** pillar | a | b | High | c |")
       = true
    /\ process_line initial_results
         "| 2. **Security** pillar | a | b | High | c |" = Ok results'
    /\ lookup results' k' = Ok (mkPillarData ["a"] ["b"] "High" ["c"])
    /\ outcome (parse_analysis_results
                  "| 2. **Security** pillar | a | b | High | c |")
       = Ok (Some table).
Proof.
  apply (pillar_name_may_be_wrapped
           "| 2. **Security** pillar | a | b | High | c |"
           initial_results
           "| 2. **Security** pillar | a | b | High | c |"
           "Security" "2. **" "** pillar").
  - reflexivity.
  - left. reflexivity.
  - reflexivity.
  - reflexivity.
  - vm_compute. lia.
  - reflexivity.
  - simpl. tauto.
Defined.

(** ** The strings of a returned table *)

Lemma all_chars_app (q : ascii -> bool) (a b : string) :
  all_chars q (a ++ b)%string = all_chars q a && all_chars q b.
Proof.
  induction a as [|c a IH]; simpl; [reflexivity|].
  now rewrite IH, andb_assoc.
Qed.

Lemma all_chars_strip_by (q p : ascii -> bool) (s : string) :
  all_chars q s = true -> all_chars q (strip_by p s) = true.
Proof.
  destruct (strip_by_middle p s) as [pre [post [E _]]].
  intros H. rewrite E, !all_chars_app in H.
  apply andb_true_iff in H as [_ H]. now apply andb_true_iff in H as [H _].
Qed.

Lemma all_chars_split_from (q : ascii -> bool) (sep s : string) :
  all_chars q s = true ->
  forall k,
    all_chars q (fst (split_from sep k s)) = true
    /\ Forall (fun f => all_chars q f = true) (snd (split_from sep k s)).
Proof.
  induction s as [|c s IH]; intros H k; [simpl; auto|].
  simpl in H. apply andb_true_iff in H as [Hc H]. cbn [split_from].
  destruct k as [|k]; [|now apply IH].
  destruct (prefix sep (String c s)).
  - destruct (IH H (pred (String.length sep))) as [H1 H2].
    destruct (split_from sep (pred (String.length sep)) s) as [f fs].
    simpl in *. split; [reflexivity|]. constructor; assumption.
  - destruct (IH H 0) as [H1 H2].
    destruct (split_from sep 0 s) as [f fs]. simpl in *.
    rewrite Hc, H1. auto.
Qed.

Lemma all_chars_split (q : ascii -> bool) (s sep : string) :
  all_chars q s = true ->
  Forall (fun f => all_chars q f = true) (split s sep).
Proof.
  intros H. unfold split.
  destruct (all_chars_split_from q sep s H 0) as [H1 H2].
  destruct (split_from sep 0 s). simpl in *. auto.
Qed.

Lemma prefix_char (c x : ascii) (s : string) :
  prefix (String c "") (String x s) = if ascii_dec c x then true else false.
Proof. simpl. destruct (ascii_dec c x); [now destruct s | reflexivity]. Qed.

Lemma split_from_char (c x : ascii) (s : string) :
  split_from (String c "") 0 (String x s)
  = if ascii_dec c x
    then (EmptyString, fst (split_from (String c "") 0 s)
                       :: snd (split_from (String c "") 0 s))
    else (String x (fst (split_from (String c "") 0 s)),
          snd (split_from (String c "") 0 s)).
Proof.
  cbn [split_from]. rewrite prefix_char. cbn [String.length pred].
  destruct (ascii_dec c x); now destruct (split_from (String c "") 0 s).
Qed.

Lemma split_char_free (c : ascii) (s : string) :
  Forall (fun f => free_of c f = true) (split s (String c "")).
Proof.
  unfold split.
  assert (H : free_of c (fst (split_from (String c "") 0 s)) = true
              /\ Forall (fun f => free_of c f = true)
                        (snd (split_from (String c "") 0 s))).
  { induction s as [|x s [IH1 IH2]]; [simpl; auto|].
    rewrite split_from_char. destruct (ascii_dec c x) as [|N]; simpl.
    - auto.
    - split; [|exact IH2]. unfold free_of in *. simpl. rewrite IH1.
      destruct (Ascii.eqb_spec x c); [congruence | reflexivity]. }
  destruct H as [H1 H2]. destruct (split_from (String c "") 0 s).
  simpl in *. auto.
Qed.

Lemma cell_items_clean (cell s : string) :
  In s (cell_items cell) ->
  truthy s = true /\ clean_ends dash_or_space s = true.
Proof.
  unfold cell_items, bullets. intros H.
  apply filter_In in H as [H T]. split; [exact T|].
  apply in_map_iff in H as [f [<- _]].
  destruct (strip_by_middle dash_or_space f) as [_ [_ [_ [_ [_ C]]]]].
  exact C.
Qed.

Lemma cell_items_all (q : ascii -> bool) (cell s : string) :
  all_chars q cell = true -> In s (cell_items cell) ->
  all_chars q s = true.
Proof.
  unfold cell_items, bullets. intros H Hin.
  apply filter_In in Hin as [Hin _].
  apply in_map_iff in Hin as [f [<- Hf]].
  apply all_chars_strip_by.
  pose proof (all_chars_split q cell "<br>" H) as A.
  rewrite Forall_forall in A. now apply A.
Qed.

Lemma row_cells_all (q : ascii -> bool) (line c : string) :
  all_chars q line = true -> In c (row_cells line) ->
  all_chars q c = true.
Proof.
  unfold row_cells. intros H Hin. apply filter_In in Hin as [Hin _].
  apply in_map_iff in Hin as [f [<- Hf]].
  apply all_chars_strip_by.
  pose proof (all_chars_split q line "|" H) as A.
  rewrite Forall_forall in A. now apply A.
Qed.

Lemma row_cells_no_delimiter (line c : string) :
  In c (row_cells line) -> free_of "|" c = true.
Proof.
  unfold row_cells. intros Hin. apply filter_In in Hin as [Hin _].
  apply in_map_iff in Hin as [f [<- Hf]].
  apply all_chars_strip_by.
  pose proof (split_char_free "|" line) as A.
  rewrite Forall_forall in A. now apply A.
Qed.

Lemma row_cells_trimmed (line c : string) :
  In c (row_cells line) -> strip c = c.
Proof.
  unfold row_cells. intros Hin. apply filter_In in Hin as [Hin _].
  apply in_map_iff in Hin as [f [<- _]]. apply strip_by_idempotent.
Qed.

Lemma nth_cell (q : string -> Prop) (cells : list string) (i : nat) :
  q "" -> (forall c, In c cells -> q c) -> q (nth i cells "").
Proof.
  intros H0 H. destruct (nth_in_or_default i cells "") as [Hin| ->]; auto.
Qed.

(** The strings a pillar's data holds. *)
Lemma in_row_fields (cells : list string) (s : string) :
  In s (risk_level (row_fields cells)
        :: strengths (row_fields cells) ++ risks (row_fields cells)
           ++ recommendations (row_fields cells)) ->
  s = nth 3 cells ""
  \/ exists i, In s (cell_items (nth i cells "")).
Proof.
  simpl. intros [<-|H]; [now left|]. right.
  rewrite !in_app_iff in H. destruct H as [H|[H|H]]; eauto.
Qed.

(** X7: in a returned table no strength, risk or recommendation is
    empty or begins or ends with a dash or a space, every risk level is
    trimmed, and a pillar has content exactly when its risk level is not
    empty. *)
Theorem stored_fields_are_clean
    (analysis_text : string) (results : Results) (k : string)
    (d : PillarData) :
  outcome (parse_analysis_results analysis_text) = Ok (Some results) ->
  In (k, d) results ->
  Forall (fun s => truthy s = true /\ clean_ends dash_or_space s = true)
         (strengths d ++ risks d ++ recommendations d)
  /\ strip (risk_level d) = risk_level d
  /\ any_values d = truthy (risk_level d).
Proof.
  intros H Hin. apply parse_some in H as [-> _].
  destruct (table_entry_origin analysis_text k d Hin)
    as [->|[line [_ [M ->]]]].
  - repeat split. constructor.
  - destruct (row_fields_have_content line k M) as [T A].
    rewrite T, A. repeat split.
    + apply Forall_forall. intros s Hs. simpl in Hs.
      rewrite !in_app_iff in Hs.
      destruct Hs as [Hs|[Hs|Hs]]; now apply cell_items_clean in Hs.
    + simpl. apply (row_cells_trimmed (strip line)). apply nth_In.
      apply matched_in_some in M as [_ [_ [L _]]]. lia.
Qed.

Lemma stored_fields_are_clean_witness :
  Forall (fun s => truthy s = true /\ clean_ends dash_or_space s = true)
         (strengths security_fields ++ risks security_fields
          ++ recommendations security_fields)
  /\ strip (risk_level security_fields) = risk_level security_fields
  /\ any_values security_fields = truthy (risk_level security_fields).
Proof.
  apply (stored_fields_are_clean security_reply
           (table_of security_reply) "Security" security_fields).
  - vm_compute. reflexivity.
  - vm_compute. tauto.
Defined.

Lemma lines_no_newline (analysis_text line : string) :
  In line (split analysis_text NL) -> free_of "010" line = true.
Proof.
  intros H. pose proof (split_char_free "010" analysis_text) as A.
  rewrite Forall_forall in A. now apply A.
Qed.

Lemma table_strings_free (analysis_text k s : string) (d : PillarData) :
  In (k, d) (table_of analysis_text) ->
  In s (risk_level d
        :: strengths d ++ risks d ++ recommendations d) ->
  free_of "|" s = true /\ free_of "010" s = true.
Proof.
  intros Hin Hs.
  destruct (table_entry_origin analysis_text k d Hin)
    as [->|[line [Hl [_ ->]]]].
  - simpl in Hs. destruct Hs as [<-|[]]. split; reflexivity.
  - assert (N : forall c, In c (row_cells (strip line)) ->
                          free_of "010" c = true).
    { intros c Hc. apply (row_cells_all _ (strip line)); [|exact Hc].
      apply all_chars_strip_by. now apply (lines_no_newline analysis_text). }
    apply in_row_fields in Hs as [->|[i Hi]].
    + split; apply nth_cell; try reflexivity; [|exact N].
      intros c Hc. now apply (row_cells_no_delimiter (strip line)).
    + split.
      * apply (cell_items_all _ (nth i (row_cells (strip line)) ""));
          [|exact Hi].
        apply nth_cell; [reflexivity|].
        intros c Hc. now apply (row_cells_no_delimiter (strip line)).
      * apply (cell_items_all _ (nth i (row_cells (strip line)) ""));
          [|exact Hi].
        apply nth_cell; [reflexivity | exact N].
Qed.

(** X8: no string of a returned table, risk level or item, contains the
    cell delimiter or a line break. *)
Theorem stored_strings_have_no_delimiter
    (analysis_text : string) (results : Results) (k s : string)
    (d : PillarData) :
  outcome (parse_analysis_results analysis_text) = Ok (Some results) ->
  In (k, d) results ->
  In s (risk_level d :: strengths d ++ risks d ++ recommendations d) ->
  free_of "|" s = true /\ free_of "010" s = true.
Proof.
  intros H Hin Hs. apply parse_some in H as [-> _].
  now apply (table_strings_free analysis_text k s d).
Qed.

Lemma stored_strings_have_no_delimiter_witness :
  free_of "|" "Rotate keys" = true /\ free_of "010" "Rotate keys" = true.
Proof.
  apply (stored_strings_have_no_delimiter security_reply
           (table_of security_reply) "Security" "Rotate keys"
           security_fields).
  - vm_compute. reflexivity.
  - vm_compute. tauto.
  - simpl. tauto.
Defined.

(** * The page and the report *)

(** ** Line breaks inside a table cell *)






(** ** The sections of the page *)

Lemma in_pillar_sections (results : Results) (p : string) :
  In (st_subheader p) (flat_map pillar_section results) <->
  exists d, In (p, d) results /\ any_values d = true.
Proof.
  rewrite in_flat_map. split.
  - intros [[k d] [Hin H]]. simpl in H.
    destruct (any_values d) eqn:A; [|contradiction].
    destruct H as [[= ->]|[H|[]]]; [eauto | discriminate].
  - intros [d [Hin A]]. exists (p, d). split; [exact Hin|].
    simpl. rewrite A. now left.
Qed.

Lemma display_subheaders (results : Results) (p : string) :
  nonempty results = true ->
  (In (st_subheader p) (display_results (Some results)) <->
   p = "High Priority Items"
   \/ exists d, In (p, d) results /\ any_values d = true).
Proof.
  intros N. unfold display_results. rewrite N. cbn [negb].
  rewrite !in_app_iff, in_pillar_sections. split.
  - intros [H|[[[= <-]|[]]|H]]; [now right | now left |].
    exfalso. destruct (nonempty (high_priority_items results)).
    + apply in_map_iff in H as [x [E _]]. discriminate.
    + destruct H as [H|[]]. discriminate.
  - intros [->|H]; [right; left; now left | now left].
Qed.

(** X10: after a successful parse, [display_results] shows a section
    headed by a pillar's name exactly for the pillars under which some line
    of the text is stored; the only other heading is that of the
    high-priority items. *)
Theorem sections_shown_are_the_stored_pillars
    (analysis_text : string) (results : Results) (p : string) :
  outcome (parse_analysis_results analysis_text) = Ok (Some results) ->
  (In (st_subheader p) (display_results (Some results)) <->
   p = "High Priority Items"
   \/ exists line,
        In line (split analysis_text NL) /\ matched_pillar line = Some p).
Proof.
  intros H. apply parse_some in H as [-> _].
  rewrite display_subheaders.
  2:{ pose proof (keys_table_of analysis_text) as K.
      destruct (table_of analysis_text); [discriminate | reflexivity]. }
  split; (intros [->|H]; [now left | right]).
  - destruct H as [d [Hin A]].
    destruct (table_entry_origin analysis_text p d Hin)
      as [->|[line [Hl [M _]]]]; [discriminate | eauto].
  - destruct H as [line [Hl M]].
    assert (Hp : In p PILLARS).
    { apply matched_in_some in M as [_ [_ [_ F]]].
      now apply find_pillar_in in F. }
    pose proof (lookup_table_of analysis_text p Hp) as L.
    destruct (last_match p (split analysis_text NL)) as [last|] eqn:E.
    + apply last_match_some in E as [_ M'].
      exists (row_fields (row_cells (strip last))).
      split; [now apply lookup_in|].
      now apply (row_fields_have_content last p).
    + exfalso. now apply (last_match_none p _ E line Hl).
Qed.

Lemma sections_shown_witness :
  In (st_subheader "Security")
     (display_results (Some (table_of security_reply)))
  <-> "Security" = "High Priority Items"
      \/ exists line,
           In line (split security_reply NL)
           /\ matched_pillar line = Some "Security".
Proof.
  apply (sections_shown_are_the_stored_pillars security_reply).
  vm_compute. reflexivity.
Defined.

(** ** The high-priority lines of the report *)






(** * The Lambda function *)

(** ** Reading the model's answer *)

(** X12: the text is read from the answer exactly when the answer is a
    JSON object whose "output" is an object, whose "message" in it is an
    object, whose "content" in that is a non-empty list, and whose first
    element is an object with a "text" entry; what is returned is that
    entry of the first element, whatever the other elements hold.  Every
    other answer raises. *)
Theorem extract_text_reads_first_block (model_response text : PyVal) :
  extract_text model_response = Return text <->
  exists top output message block blocks,
    model_response = PDict top
    /\ dict_find top "output" = Some (PDict output)
    /\ dict_find output "message" = Some (PDict message)
    /\ dict_find message "content" = Some (PList (PDict block :: blocks))
    /\ dict_find block "text" = Some text.
Proof.
  split.
  - intros H. unfold extract_text, py_in, py_item, py_first in H.
    destruct model_response as [| | | | s | items | top];
      cbn [try_bind] in H; try discriminate H.
    + destruct (contains "output" s); cbn [try_bind] in H; discriminate H.
    + destruct (existsb _ items); cbn [try_bind] in H; discriminate H.
    + destruct (dict_find top "output") as [out|] eqn:E1;
        cbn [try_bind] in H; [|discriminate H].
      destruct out as [| | | | s | items | output];
        cbn [try_bind] in H; try discriminate H.
      * destruct (contains "message" s); cbn [try_bind] in H;
          discriminate H.
      * destruct (existsb _ items); cbn [try_bind] in H; discriminate H.
      * destruct (dict_find output "message") as [msg|] eqn:E2;
          cbn [try_bind] in H; [|discriminate H].
        destruct msg as [| | | | | | message];
          cbn [try_bind] in H; try discriminate H.
        destruct (dict_find message "content") as [content|] eqn:E3;
          cbn [try_bind] in H; [|discriminate H].
        destruct content as [| | | | [|c s] | [|first blocks] | entries];
          cbn [try_bind] in H; try discriminate H.
        destruct first as [| | | | | | block];
          cbn [try_bind] in H; try discriminate H.
        destruct (dict_find block "text") as [t|] eqn:E4;
          [|discriminate H].
        injection H as ->.
        exists top, output, message, block, blocks. auto.
  - intros [top [output [message [block [blocks [-> [E1 [E2 [E3 E4]]]]]]]]].
    unfold extract_text, py_in, py_item, py_first. cbn [try_bind].
    rewrite E1. cbn [try_bind]. rewrite E2. cbn [try_bind].
    rewrite E3. cbn [try_bind]. now rewrite E4.
Qed.

(** X13: an answer that is a JSON object without "output", or whose
    "output" is an object without "message", raises the exception with the
    message "Unexpected response format from model"; an answer whose
    "content" is an empty list raises an index error, and one whose first
    content element has no "text" raises a key error, even when a later
    element has one. *)
Theorem malformed_answers_raise
    (top output message block : list (string * PyVal))
    (blocks : list PyVal) :
  (dict_find top "output" = None ->
   extract_text (PDict top)
   = Throw (Exception_ "Unexpected response format from model"))
  /\ (dict_find top "output" = Some (PDict output) ->
      dict_find output "message" = None ->
      extract_text (PDict top)
      = Throw (Exception_ "Unexpected response format from model"))
  /\ (dict_find top "output" = Some (PDict output) ->
      dict_find output "message" = Some (PDict message) ->
      dict_find message "content" = Some (PList []) ->
      extract_text (PDict top) = Throw Index_error)
  /\ (dict_find top "output" = Some (PDict output) ->
      dict_find output "message" = Some (PDict message) ->
      dict_find message "content" = Some (PList (PDict block :: blocks)) ->
      dict_find block "text" = None ->
      extract_text (PDict top) = Throw Key_error).
Proof.
  unfold extract_text, py_in, py_item, py_first.
  repeat split.
  - intros E1. now rewrite E1.
  - intros E1 E2. cbn [try_bind]. rewrite E1. cbn [try_bind].
    now rewrite E2.
  - intros E1 E2 E3. cbn [try_bind]. rewrite E1. cbn [try_bind].
    rewrite E2. cbn [try_bind]. now rewrite E3.
  - intros E1 E2 E3 E4. cbn [try_bind]. rewrite E1. cbn [try_bind].
    rewrite E2. cbn [try_bind]. rewrite E3. cbn [try_bind]. now rewrite E4.
Qed.

Lemma malformed_answers_raise_witness :
  extract_text (PDict image_first_answer) = Throw Key_error.
Proof.
  refine (proj2 (proj2 (proj2
            (malformed_answers_raise image_first_answer _ _ _ _)))
            eq_refl eq_refl eq_refl eq_refl).
Defined.

(** ** The handler *)

Section LambdaFacts.

Variable invoke_model : PyVal -> Try PyVal.
Variable json_loads : string -> Try PyVal.
Variable json_dumps : PyVal -> string.
Variable str_exc : PyExc -> string.

Local Abbreviation handler :=
  (lambda_handler invoke_model json_loads json_dumps str_exc).
Local Abbreviation post :=
  (handle_post invoke_model json_loads json_dumps).
Local Abbreviation analyze := (analyze_architecture invoke_model).

(** The value of [event.get('httpMethod')] and of [body.get('image')]. *)
Local Abbreviation entry_or_none entries key :=
  (match dict_find entries key with Some v => v | None => PNone end).

(** How a request that is not a preflight ends. *)
Lemma handle_post_cases (event : list (string * PyVal)) :
  (exists e, post event = Throw e)
  \/ (exists raw decoded,
        dict_find event "body" = Some (PStr raw)
        /\ json_loads raw = Return (PDict decoded)
        /\ py_truthy (entry_or_none decoded "image") = false
        /\ post event
           = Return (mkResponse 400 CORS_HEADERS
                       (json_dumps
                          (PDict [("error",
                                   PStr "Image data is required")]))))
  \/ (exists raw decoded text,
        dict_find event "body" = Some (PStr raw)
        /\ json_loads raw = Return (PDict decoded)
        /\ py_truthy (entry_or_none decoded "image") = true
        /\ analyze (entry_or_none decoded "image") = Return text
        /\ post event
           = Return (mkResponse 200 CORS_HEADERS
                       (json_dumps
                          (PDict [ ("analysis", text);
                                   ("raw_response", PBool true) ])))).
Proof.
  unfold handle_post, py_item, loads, py_get.
  destruct (dict_find event "body") as [raw|] eqn:B;
    cbn [try_bind]; [|left; eauto].
  destruct raw as [| | | | raw | |]; cbn [try_bind]; try (left; eauto; fail).
  destruct (json_loads raw) as [decoded|e] eqn:J;
    cbn [try_bind]; [|left; eauto].
  destruct decoded as [| | | | | | decoded];
    cbn [try_bind]; try (left; eauto; fail).
  destruct (py_truthy (entry_or_none decoded "image")) eqn:T; cbn [negb].
  - destruct (analyze_architecture invoke_model
                (entry_or_none decoded "image")) as [text|e] eqn:A;
      cbn [try_bind]; [|left; eauto].
    right. right. exists raw, decoded, text. auto.
  - right. left. exists raw, decoded. auto.
Qed.

(** X14: whatever the event holds and whatever the decoder, the service
    and the encoder do, the handler answers with status 200, 400 or 500
    and always with the same three CORS headers. *)
Theorem handler_status_and_headers (event : list (string * PyVal)) :
  headers (handler event) = CORS_HEADERS
  /\ (statusCode (handler event) = 200%Z
      \/ statusCode (handler event) = 400%Z
      \/ statusCode (handler event) = 500%Z).
Proof.
  unfold lambda_handler.
  destruct (py_eq_str _ "OPTIONS"); [simpl; auto|].
  destruct (handle_post_cases event)
    as [[e E]|[[raw [decoded [_ [_ [_ E]]]]]
              |[raw [decoded [text [_ [_ [_ [_ E]]]]]]]]];
    rewrite E; simpl; auto.
Qed.

(** A preflight request, one whose method is OPTIONS, gets status 200 and
    an empty body whatever else the event holds: its body is not looked at
    and the model is not called. *)
Lemma preflight_is_answered_at_once (event : list (string * PyVal)) :
  dict_find event "httpMethod" = Some (PStr "OPTIONS") ->
  handler event = mkResponse 200 CORS_HEADERS "".
Proof. intros H. unfold lambda_handler. now rewrite H. Qed.

(** X15: the handler answers 400 exactly when the request is not a
    preflight, its body is a str that decodes to a JSON object, and the
    "image" entry of that object is missing or falsy (null, false, zero, an
    empty string, list or object). *)
Theorem status_400_iff_image_missing (event : list (string * PyVal)) :
  statusCode (handler event) = 400%Z <->
  py_eq_str (entry_or_none event "httpMethod") "OPTIONS" = false
  /\ exists raw decoded,
       dict_find event "body" = Some (PStr raw)
       /\ json_loads raw = Return (PDict decoded)
       /\ py_truthy (entry_or_none decoded "image") = false.
Proof.
  unfold lambda_handler.
  destruct (py_eq_str _ "OPTIONS"); [simpl; split; [discriminate|easy]|].
  destruct (handle_post_cases event)
    as [[e E]|[[raw [decoded [B [J [T E]]]]]
              |[raw [decoded [text [B [J [T [_ E]]]]]]]]];
    rewrite E; simpl.
  - split; [discriminate|].
    intros [_ [raw [decoded [B [J T]]]]].
    unfold handle_post, py_item, loads, py_get in E.
    rewrite B in E. cbn [try_bind] in E. rewrite J in E.
    cbn [try_bind] in E. rewrite T in E. discriminate E.
  - split; [|reflexivity]. intros _. split; [reflexivity|]. eauto.
  - split; [discriminate|].
    intros [_ [raw' [decoded' [B' [J' T']]]]].
    rewrite B in B'. injection B' as <-. rewrite J in J'.
    injection J' as <-. congruence.
Qed.

(** X16: a request that is not a preflight gets status 200 exactly when
    its body decodes to a JSON object with a truthy "image" entry and the
    analysis of that entry returns; the body of the answer is then the
    encoding of the analysis together with the flag "raw_response". *)
Theorem status_200_iff_analysis_returns (event : list (string * PyVal)) :
  py_eq_str (entry_or_none event "httpMethod") "OPTIONS" = false ->
  (statusCode (handler event) = 200%Z <->
   exists raw decoded text,
     dict_find event "body" = Some (PStr raw)
     /\ json_loads raw = Return (PDict decoded)
     /\ py_truthy (entry_or_none decoded "image") = true
     /\ analyze (entry_or_none decoded "image") = Return text
     /\ body (handler event)
        = json_dumps (PDict [ ("analysis", text);
                              ("raw_response", PBool true) ])).
Proof.
  intros M. unfold lambda_handler. rewrite M.
  destruct (handle_post_cases event)
    as [[e E]|[[raw [decoded [B [J [T E]]]]]
              |[raw [decoded [text [B [J [T [A E]]]]]]]]];
    rewrite E; simpl.
  - split; [discriminate|].
    intros [raw [decoded [text [B [J [T [A _]]]]]]].
    unfold handle_post, py_item, loads, py_get in E.
    rewrite B in E. cbn [try_bind] in E. rewrite J in E.
    cbn [try_bind] in E. rewrite T in E. cbn [negb] in E.
    unfold analyze_architecture in A, E. rewrite A in E. discriminate E.
  - split; [discriminate|].
    intros [raw' [decoded' [text [B' [J' [T' _]]]]]].
    rewrite B in B'. injection B' as <-. rewrite J in J'.
    injection J' as <-. congruence.
  - split; [|reflexivity]. intros _. exists raw, decoded, text. auto.
Qed.

(** X17: a request that is not a preflight and has no body, or a body
    that is not a str, or a body that does not decode, or one that decodes
    to something other than a JSON object, gets status 500 with the text of
    the exception, not 400. *)
Theorem bad_body_is_a_server_error (event : list (string * PyVal)) :
  py_eq_str (entry_or_none event "httpMethod") "OPTIONS" = false ->
  (forall raw decoded,
     dict_find event "body" = Some (PStr raw) ->
     json_loads raw <> Return (PDict decoded)) ->
  exists e,
    handler event
    = mkResponse 500 CORS_HEADERS
        (json_dumps (PDict [("error", PStr (str_exc e))])).
Proof.
  intros M H. unfold lambda_handler. rewrite M.
  destruct (handle_post_cases event)
    as [[e E]|[[raw [decoded [B [J _]]]]
              |[raw [decoded [text [B [J _]]]]]]].
  - rewrite E. eauto.
  - now destruct (H raw decoded B).
  - now destruct (H raw decoded B).
Qed.

End LambdaFacts.

Lemma preflight_is_answered_at_once_witness :
  lambda_handler toy_model toy_loads toy_dumps toy_str
    [("httpMethod", PStr "OPTIONS"); ("body", PNone)]
  = mkResponse 200 CORS_HEADERS "".
Proof.
  apply (preflight_is_answered_at_once toy_model toy_loads toy_dumps toy_str).
  reflexivity.
Defined.

Lemma status_200_iff_analysis_returns_witness :
  statusCode (lambda_handler toy_model toy_loads toy_dumps toy_str
                [("httpMethod", PStr "POST"); ("body", PStr "image")])
  = 200%Z
  <-> exists raw decoded text,
        dict_find [("httpMethod", PStr "POST"); ("body", PStr "image")]
          "body" = Some (PStr raw)
        /\ toy_loads raw = Return (PDict decoded)
        /\ py_truthy (match dict_find decoded "image" with
                      | Some v => v
                      | None => PNone
                      end) = true
        /\ analyze_architecture toy_model
             (match dict_find decoded "image" with
              | Some v => v
              | None => PNone
              end) = Return text
        /\ body (lambda_handler toy_model toy_loads toy_dumps toy_str
                   [("httpMethod", PStr "POST"); ("body", PStr "image")])
           = toy_dumps (PDict [ ("analysis", text);
                                ("raw_response", PBool true) ]).
Proof.
  apply (status_200_iff_analysis_returns
           toy_model toy_loads toy_dumps toy_str).
  reflexivity.
Defined.

Lemma bad_body_is_a_server_error_witness :
  exists e,
    lambda_handler toy_model toy_loads toy_dumps toy_str
      [("httpMethod", PStr "POST"); ("body", PStr "list")]
    = mkResponse 500 CORS_HEADERS
        (toy_dumps (PDict [("error", PStr (toy_str e))])).
Proof.
  apply (bad_body_is_a_server_error toy_model toy_loads toy_dumps toy_str).
  - reflexivity.
  - intros raw decoded [= <-]. discriminate.
Defined.

(** * The call of the application to the service *)

Section AnalyzeFacts.

Variable Image : Type.
Variable open_image : list Byte.byte -> Try Image.
Variable mode : Image -> string.
Variable size : Image -> nat * nat.
Variable Image_new : string -> nat * nat -> Z * Z * Z -> Image.
Variable last_band : Image -> Image.
Variable paste : Image -> Image -> Image -> Image.
Variable convert : Image -> string -> Image.
Variable save_jpeg : Image -> Z -> list Byte.byte.
Variable b64encode : list Byte.byte -> string.
Variable post : PyVal -> Try HttpResponse.
Variable str_exc : PyExc -> string.
Variable format_value : PyVal -> string.

Local Abbreviation analyze :=
  (App.analyze_architecture Image open_image mode size Image_new last_band
     paste convert save_jpeg b64encode post str_exc format_value).
Local Abbreviation payload :=
  (App.payload_of Image mode size Image_new last_band paste convert
     save_jpeg b64encode).

(** X18: the call returns something other than [None] only when the
    image could be opened, the service answered the payload made of it
    with status 200, and the answer decodes to a JSON object; the value
    returned is the "analysis" entry of that object, and nothing has been
    shown to the user. *)
Theorem analysis_comes_from_a_200_answer
    (image_bytes : list Byte.byte) (v : PyVal) :
  snd (analyze image_bytes) = v -> v <> PNone ->
  exists image response data,
    open_image image_bytes = Return image
    /\ post (payload image) = Return response
    /\ status_code response = 200%Z
    /\ json response = Return (PDict data)
    /\ dict_find data "analysis" = Some v
    /\ fst (analyze image_bytes) = [].
Proof.
  unfold App.analyze_architecture, App.analyze_body.
  destruct (open_image image_bytes) as [image|e] eqn:O; cbn [try_bind].
  2:{ destruct e; simpl; intros <-; congruence. }
  destruct (post (payload image)) as [response|e] eqn:P.
  2:{ destruct e; simpl; intros <-; congruence. }
  destruct (Z.eqb (status_code response) 200) eqn:S.
  - apply Z.eqb_eq in S.
    destruct (json response) as [data|e] eqn:J; cbn [try_bind].
    2:{ destruct e; simpl; intros <-; congruence. }
    destruct data as [| | | | | | data]; cbn [py_get];
      try (simpl; intros <-; congruence).
    simpl. intros <- N.
    exists image, response, data.
    destruct (dict_find data "analysis"); [auto 10 | congruence].
  - destruct (json response) as [data|e] eqn:J; cbn [try_bind].
    2:{ destruct e; simpl; intros <-; congruence. }
    destruct (py_get data "error") as [err|e].
    2:{ destruct e; simpl; intros <-; congruence. }
    destruct (py_truthy err); [|simpl; intros <-; congruence].
    destruct (py_item data "error") as [details|e].
    + simpl. intros <-. congruence.
    + destruct e; simpl; intros <-; congruence.
Qed.


End AnalyzeFacts.

Lemma analysis_comes_from_a_200_answer_witness :
  exists image response data,
    toy_open [] = Return image
    /\ toy_post_ok
         (App.payload_of Picture picture_mode picture_size New Band Pasted
            Converted toy_save toy_b64 image) = Return response
    /\ status_code response = 200%Z
    /\ json response = Return (PDict data)
    /\ dict_find data "analysis" = Some (PStr security_row)
    /\ fst (App.analyze_architecture Picture toy_open picture_mode
              picture_size New Band Pasted Converted toy_save toy_b64
              toy_post_ok toy_str toy_format []) = [].
Proof.
  apply (analysis_comes_from_a_200_answer Picture toy_open picture_mode
           picture_size New Band Pasted Converted toy_save toy_b64
           toy_post_ok toy_str toy_format [] (PStr security_row)).
  - reflexivity.
  - discriminate.
Defined.


Example timeout_is_reported :
  App.analyze_architecture Picture toy_open picture_mode picture_size New
    Band Pasted Converted toy_save toy_b64 toy_post_timeout toy_str
    toy_format []
  = ([st_error "Request timed out. Please try again."], PNone).
Proof. reflexivity. Qed.

(** * The image, once more *)

Section NormalizeTwice.

Variable Image : Type.
Variable mode : Image -> string.
Variable size : Image -> nat * nat.
Variable Image_new : string -> nat * nat -> Z * Z * Z -> Image.
Variable last_band : Image -> Image.
Variable paste : Image -> Image -> Image -> Image.
Variable convert : Image -> string -> Image.
Variable save_jpeg : Image -> Z -> list Byte.byte.

Hypothesis mode_new : forall m sz c, mode (Image_new m sz c) = m.
Hypothesis mode_paste :
  forall background image mask,
    mode (paste background image mask) = mode background.
Hypothesis mode_convert : forall image m, mode (convert image m) = m.

Local Abbreviation normalize :=
  (normalize_mode Image mode size Image_new last_band paste convert).
Lemma normalized_is_rgb (image : Image) : mode (normalize image) = "RGB".
Proof.
  unfold normalize_mode.
  destruct (in_modes (mode image) ["RGBA"; "LA"]);
    [now rewrite mode_paste, mode_new|].
  destruct (String.eqb (mode image) "RGB") eqn:E; simpl;
    [now apply String.eqb_eq in E | apply mode_convert].
Qed.

Lemma rgb_is_kept (image : Image) :
  mode image = "RGB" -> normalize image = image.
Proof. intros E. unfold normalize_mode. now rewrite E. Qed.

(** X20: normalising the colour mode twice is the same as normalising
    it once, so that converting an image that [convert_to_jpeg] has already
    normalised saves the same image again: no second paste on white and no
    second conversion. *)
Theorem normalize_mode_idempotent (image : Image) :
  normalize_mode Image mode size Image_new last_band paste convert
    (normalize_mode Image mode size Image_new last_band paste convert image)
  = normalize_mode Image mode size Image_new last_band paste convert image
  /\ convert_to_jpeg Image mode size Image_new last_band paste convert
       save_jpeg
       (normalize_mode Image mode size Image_new last_band paste convert
          image)
     = convert_to_jpeg Image mode size Image_new last_band paste convert
         save_jpeg image.
Proof.
  assert (H : normalize (normalize image) = normalize image)
    by (apply rgb_is_kept, normalized_is_rgb).
  split; [exact H|]. unfold convert_to_jpeg. now rewrite H.
Qed.

End NormalizeTwice.

Lemma normalize_mode_idempotent_witness :
  picture_normalize (picture_normalize (Opened "LA" (4, 4)))
  = picture_normalize (Opened "LA" (4, 4)).
Proof.
  exact (proj1 (normalize_mode_idempotent
                  Picture picture_mode picture_size New Band Pasted
                  Converted toy_save
                  (fun _ _ _ => eq_refl) (fun _ _ _ => eq_refl)
                  (fun _ _ => eq_refl) (Opened "LA" (4, 4)))).
Defined.

(** * The order of the rows *)

Lemma results_ext (r1 r2 : Results) :
  keys r1 = keys r2 -> NoDup (keys r1) ->
  (forall k, In k (keys r1) -> lookup r1 k = lookup r2 k) ->
  r1 = r2.
Proof.
  revert r2. induction r1 as [|[k d] r1 IH]; intros [|[k' d'] r2] K N H;
    try discriminate; [reflexivity|].
  simpl in K. injection K as <- K.
  inversion N as [|? ? Hn N']; subst.
  pose proof (H k (or_introl eq_refl)) as Hk. simpl in Hk.
  rewrite String.eqb_refl in Hk. injection Hk as <-.
  f_equal. apply IH; [exact K | exact N'|].
  intros x Hx. specialize (H x (or_intror Hx)). simpl in H.
  destruct (String.eqb k x) eqn:E; [|exact H].
  apply String.eqb_eq in E. subst x. contradiction.
Qed.

Lemma same_table_same_outcome (text1 text2 : string) :
  table_of text1 = table_of text2 ->
  outcome (parse_analysis_results text1)
  = outcome (parse_analysis_results text2).
Proof.
  intros T. rewrite !parse_outcome, T.
  destruct (has_content (table_of text2)) eqn:C;
    [|now rewrite !andb_false_r].
  assert (C1 : has_content (table_of text1) = true) by now rewrite T.
  apply has_content_table in C as [l2 [H2 S2]].
  apply has_content_table in C1 as [l1 [H1 S1]].
  rewrite (stored_line_text_nonempty text1 l1 H1 S1).
  rewrite (stored_line_text_nonempty text2 l2 H2 S2).
  reflexivity.
Qed.

(** X21: the result depends, for each pillar, on the last line stored
    under it and on nothing else: two texts that agree on that line for
    every pillar give the same result.  In particular the rows of
    different pillars may come in any order. *)
Theorem result_depends_on_last_rows_only (text1 text2 : string) :
  (forall p, In p PILLARS ->
             last_match p (split text1 NL) = last_match p (split text2 NL)) ->
  outcome (parse_analysis_results text1)
  = outcome (parse_analysis_results text2).
Proof.
  intros H. apply same_table_same_outcome.
  apply results_ext.
  - now rewrite !keys_table_of.
  - rewrite keys_table_of. apply nodup_pillars.
  - intros k Hk. rewrite keys_table_of in Hk.
    rewrite !lookup_table_of by exact Hk. now rewrite (H k Hk).
Qed.

Lemma result_depends_on_last_rows_only_witness :
  outcome (parse_analysis_results
             (join NL [ "| Reliability | Multi-AZ | None | Low | Keep it |";
                        security_row ]))
  = outcome (parse_analysis_results
               (join NL [ "| Security | stale | stale | Low | stale |";
                          security_row;
                          "| Reliability | Multi-AZ | None | Low | Keep it |" ])).
Proof.
  apply result_depends_on_last_rows_only.
  intros p Hp. simpl in Hp.
  repeat (destruct Hp as [<-|Hp]; [vm_compute; reflexivity|]).
  contradiction.
Defined.
